(** * Application controllers of cogent.app: cove.py and vienna_package.py

    A shallow embedding of the wrappers for the cove family (covet, coves,
    covee, covea) and for the Vienna RNA package (RNAfold, RNAplot), with the
    helper functions built on them, followed by the properties of input
    adaptation and result-path resolution. *)

From Stdlib Require Import ZArith Ascii String List.
From stdpp Require Import base option list strings gmap fin_sets.

Local Open Scope Z_scope.
Local Set Warnings "-clear-no-such-hyp".

(** ** Python values and builtins used by the wrappers *)
Module Py.

(** The exceptions the two modules can raise or let through. *)
Inductive exception :=
| NameError (name : string)
| KeyError (key : string)
| TypeError (msg : string)
| ValueError (msg : string)
| DataError (msg : string)
| IndexError (msg : string)
| IOError (path : string).

(** A computation either returns a value or raises. *)
Inductive Exc (A : Type) :=
| Return (a : A)
| Raise (e : exception).
Arguments Return {A} a.
Arguments Raise {A} e.

Definition bind {A B} (c : Exc A) (k : A → Exc B) : Exc B :=
  match c with
  | Return a => k a
  | Raise e => Raise e
  end.

Definition raises {A} (c : Exc A) : Prop := ∃ e, c = Raise e.

(** The character written as a backslash followed by n in the sources. *)
Definition NL : ascii := "010"%char.
Definition newline : string := String NL "".

(** [s.startswith(p)] *)
Definition startswith (p s : string) : bool := String.prefix p s.

(** [s.lstrip(chars)], [s.rstrip(chars)], [s.strip(chars)]: drop the
    characters of [chars] from the left end, the right end, both ends. *)
Fixpoint lstrip (chars : list ascii) (s : string) : string :=
  match s with
  | EmptyString => EmptyString
  | String c s' => if bool_decide (c ∈ chars) then lstrip chars s' else s
  end.

Fixpoint rstrip (chars : list ascii) (s : string) : string :=
  match s with
  | EmptyString => EmptyString
  | String c s' =>
      match rstrip chars s' with
      | EmptyString =>
          if bool_decide (c ∈ chars) then EmptyString else String c EmptyString
      | r => String c r
      end
  end.

Definition strip (chars : list ascii) (s : string) : string :=
  rstrip chars (lstrip chars s).

(** [sep.join(ls)] *)
Definition join (sep : string) (ls : list string) : string :=
  String.concat sep ls.

(** [f.readlines()] on a file holding [s]: the content is cut after every
    newline; a last piece without newline is a line too, unless empty. *)
Fixpoint readlines (s : string) : list string :=
  match s with
  | EmptyString => []
  | String c s' =>
      if bool_decide (c = NL) then String c EmptyString :: readlines s'
      else match readlines s' with
           | [] => [String c EmptyString]
           | line :: lines => String c line :: lines
           end
  end.

(** [c in s] for a character. *)
Fixpoint contains (c : ascii) (s : string) : bool :=
  match s with
  | EmptyString => false
  | String c' s' => bool_decide (c' = c) || contains c s'
  end.

(** [s.endswith(suf)] *)
Fixpoint endswith (suf s : string) : bool :=
  if String.eqb s suf then true
  else match s with
       | EmptyString => false
       | String _ s' => endswith suf s'
       end.

(** [s.upper()] *)
Definition upper_char (c : ascii) : ascii :=
  let n := nat_of_ascii c in
  if ((97 <=? n) && (n <=? 122))%nat then ascii_of_nat (n - 32) else c.
Fixpoint upper (s : string) : string :=
  match s with
  | EmptyString => EmptyString
  | String c s' => String (upper_char c) (upper s')
  end.

(** [random.choice(seq)] is [seq[int(random() * len(seq))]]; [r] stands for
    the number drawn, reduced to an index of [seq]. *)
Definition choice (seq : string) (r : nat) : ascii :=
  default "000"%char (String.get (r mod String.length seq) seq).

(** What a method is called on: the wrappers test [isinstance(data, list)]
    and otherwise use the value as a file name. *)
Inductive data :=
| PyList (records : list string)
| PyStr (s : string).

End Py.

Import Py.

(** Sequencing uses stdpp's monad notation [x ← c; k]. *)
Global Instance Exc_bind : MBind Exc := λ A B k c, Py.bind c k.

(** ** The collaborators in cogent.app.util and cogent.app.parameters *)
Module Util.

(** Modelled from the spec: class ResultPath of cogent.app.util is not
    among the sources. A result path is a predicted path tagged with
    whether the file is expected to have been written (section 3, Result
    object). *)
Record ResultPath := { Path : string; IsWritten : bool }.

(** Modelled from the spec: the constructor default of ResultPath (missing
    with the class). An entry is by default one the wrapper believes the
    external process wrote. *)
Definition IsWritten_default : bool := true.

(** Modelled from the spec: the Parameter classes of cogent.app.parameters
    are not among the sources ([Parameter] is a reserved word here, hence
    [Param]). Section 3 gives a Parameter its prefix, name, delimiter,
    optional value and on/off state. *)
Record Param := {
  Prefix : string;
  Name : string;
  Delimiter : string;
  Value : option string;
  On : bool
}.
Definition isOn (p : Param) : bool := On p.

(** [str(v)] of a Parameter value. *)
Definition str_Value (v : option string) : string :=
  match v with
  | None => "None"
  | Some s => s
  end.

(** The state the methods below read from an application instance.
    [Parameters] is the instance's private copy of the class catalogue; the
    methods only index flags of their own catalogue, so the lookup is total
    here. *)
Record CommandLineApplication := {
  WorkingDir : string;
  Parameters : string → Param;
  _input_filename : option string
}.

(** The file system (the content of every file that exists) and the external
    commands launched so far, oldest first. *)
Record World := {
  files : gmap string string;
  launched : list string
}.

(** [open(path).readlines()] *)
Definition open_readlines (w : World) (path : string) : Exc (list string) :=
  match files w !! path with
  | Some content => Return (readlines content)
  | None => Raise (IOError path)
  end.

(** [isinstance(data, list)] is false: the data is a file to read. *)
Definition lines_of (w : World) (d : data) : Exc (list string) :=
  match d with
  | PyList records => Return records
  | PyStr path => open_readlines w path
  end.

End Util.

Import Util.

(** ** vienna_package.py *)

Module RNAfold.

(** The local variables of [_get_result_paths]. *)
Record locals := {
  result : gmap string ResultPath;
  name_counter : Z;
  seq_counter : Z
}.

(** The body of [for item in data]. *)
Definition loop_body (self : CommandLineApplication) (l : locals) (item : string)
  : locals :=
  if startswith ">" item then
    let name := strip [">"%char; NL] item in
    {| result :=
         <[ name +:+ "_dp" :=
              {| Path := (WorkingDir self +:+ name) +:+ "_dp.ps";
                 IsWritten := isOn (Parameters self "-p") |} ]>
         (<[ name +:+ "_ss" :=
              {| Path := (WorkingDir self +:+ name) +:+ "_ss.ps";
                 IsWritten := IsWritten_default |} ]>
          (result l));
       name_counter := name_counter l + 1;
       seq_counter := seq_counter l |}
  else
    {| result := result l;
       name_counter := name_counter l;
       seq_counter := seq_counter l + 1 |}.

Definition scan (self : CommandLineApplication) (records : list string) : locals :=
  fold_left (loop_body self) records
    {| result := ∅; name_counter := 0; seq_counter := 0 |}.

Definition _get_result_paths (self : CommandLineApplication) (w : World) (d : data)
  : Exc (gmap string ResultPath) :=
  records ← lines_of w d;
  let l := scan self records in
  let result1 :=
    <[ "SS" := {| Path := WorkingDir self +:+ "rna.ps";
                  IsWritten := (seq_counter l - name_counter l >? 0) |} ]>
    (result l) in
  let result2 :=
    <[ "DP" := {| Path := WorkingDir self +:+ "dot.ps";
                  IsWritten := isOn (Parameters self "-p")
                               && (seq_counter l - name_counter l >? 0) |} ]>
    result1 in
  Return result2.

End RNAfold.

Module RNAplot.

Definition FILETYPE_TO_EXTENSION : gmap string string :=
  <[ "ps" := ".ps" ]> (<[ "gml" := ".gml" ]> (<[ "svg" := ".svg" ]>
  (<[ "xrna" := ".ss" ]> ∅))).

(** What a bare name in a function body of vienna_package.py can denote:
    a mapping table, or some other object. *)
Inductive object :=
| Table (t : gmap string string)
| Other.

(** The names bound at the top level of vienna_package.py, by its imports,
    its assignments and its class and function definitions. A bare name in a
    method body is looked up there (after the method's own locals), not in
    the body of the class: [FILETYPE_TO_EXTENSION] is an attribute of class
    RNAplot and is not among them. *)
Definition module_globals : gmap string object :=
  list_to_map ((λ n, (n, Other)) <$>
    [ "CommandLineApplication"; "CommandLineAppResult"; "ResultPath";
      "Parameter"; "FlagParameter"; "ValuedParameter"; "MixedParameter";
      "Parameters"; "_find_synonym"; "is_not_None"; "ViennaStructure";
      "DataError"; "MinimalRnaalifoldParser"; "choice";
      "__author__"; "__copyright__"; "__credits__"; "__license__";
      "__version__"; "__maintainer__"; "__email__"; "__status__";
      "RNAfold"; "get_constrained_fold"; "RNAsubopt"; "RNAplot";
      "plot_from_seq_and_struct" ]).

Definition load_global (name : string) : Exc object :=
  match module_globals !! name with
  | Some o => Return o
  | None => Raise (NameError name)
  end.

(** [o[key]] *)
Definition subscript (o : object) (key : string) : Exc string :=
  match o with
  | Table t =>
      match t !! key with
      | Some v => Return v
      | None => Raise (KeyError key)
      end
  | Other => Raise (TypeError "object is unsubscriptable")
  end.

Record locals := {
  result : gmap string ResultPath;
  name_counter : Z;
  seq_counter : Z
}.

(** The local variables [chars] and [picks] of [_get_tmp_seqname]. *)
Definition chars : string := "abcdefghigklmnopqrstuvwxyz".
Definition picks : string := chars +:+ upper chars +:+ "0123456790".

(** [random i] is the number drawn at the i-th call of [choice]. *)
Definition _get_tmp_seqname (random : nat → nat) : string :=
  "tmp" +:+ string_of_list_ascii ((λ i, choice picks (random i)) <$> seq 0 9).

Section WithBase.

(** [CommandLineApplication._absolute] of cogent.app.util, which is not
    among the sources: it turns a file name into an absolute path. *)
Variable _absolute : CommandLineApplication → string → string.

Definition _get_outfile_extension (self : CommandLineApplication) : Exc string :=
  if negb (isOn (Parameters self "-o")) then
    Return ".ps"
  else
    let filetype := _absolute self (str_Value (Value (Parameters self "-o"))) in
    table ← load_global "FILETYPE_TO_EXTENSION";
    subscript table filetype.

(** The body of [for item in data]. *)
Definition loop_body (self : CommandLineApplication) (res_extension : string)
    (l : locals) (item : string) : locals :=
  if startswith ">" item then
    let name := strip [">"%char; NL] item in
    {| result :=
         <[ name +:+ "_ss" :=
              {| Path := ((WorkingDir self +:+ name) +:+ "_ss") +:+ res_extension;
                 IsWritten := IsWritten_default |} ]>
         (result l);
       name_counter := name_counter l + 1;
       seq_counter := seq_counter l |}
  else
    {| result := result l;
       name_counter := name_counter l;
       seq_counter := seq_counter l + 1 |}.

Definition scan (self : CommandLineApplication) (res_extension : string)
    (records : list string) : locals :=
  fold_left (loop_body self res_extension) records
    {| result := ∅; name_counter := 0; seq_counter := 0 |}.

(** The sources are Python 2: [/] on two integers is floor division. *)
Definition _get_result_paths (self : CommandLineApplication) (w : World) (d : data)
  : Exc (gmap string ResultPath) :=
  records ← lines_of w d;
  res_extension ← _get_outfile_extension self;
  let l := scan self res_extension records in
  if (seq_counter l / 2 - name_counter l >? 0) then
    Return (<[ "SS" := {| Path := (WorkingDir self +:+ "rna") +:+ res_extension;
                          IsWritten := true |} ]> (result l))
  else
    Return (result l).

End WithBase.

End RNAplot.

(** The two helper functions of vienna_package.py. *)
Module Helpers.

Section WithCollaborators.

(** The parts of the library the helpers call and the sources do not hold:
    the constructors of the two application classes, what running an
    application on its input does to the files and returns, the readers
    of a result, the parser of RNAfold's output, and the release of a
    result. *)
Context {params CommandLineAppResult : Type}.
Variable RNAfold_new : option params → CommandLineApplication.
Variable RNAplot_new : string → option params → CommandLineApplication.
Variable run : string → CommandLineApplication → list string →
               gmap string string → Exc CommandLineAppResult * gmap string string.
Variable StdOut_readlines : CommandLineAppResult → list string.
Variable read_result : CommandLineAppResult → string → Exc string.
Variable MinimalRnaalifoldParser : list string → Exc (list (string * string * string)).
Variable release : CommandLineAppResult → gmap string string → gmap string string.

(** Modelled from the spec: [__call__] of the base class is not among the
    sources.
    Section 4.5: calling an application on its input executes the command
    as a blocking external process and hands back the result. *)
Definition call (command : string) (app : CommandLineApplication)
    (input : list string) (w : World) : Exc CommandLineAppResult * World :=
  let '(res, fs) := run command app input (files w) in
  (res, {| files := fs; launched := launched w ++ [command] |}).

(** [res.cleanUp()] *)
Definition cleanUp (res : CommandLineAppResult) (w : World) : World :=
  {| files := release res (files w); launched := launched w |}.

(** [_get_tmp_seqname] of class RNAplot; [picked] holds the nine characters
    that [random.choice] draws in this run. *)
Variable picked : string.
Definition _get_tmp_seqname : string := "tmp" +:+ picked.

(** Modelled from the spec: class ViennaStructure of cogent.struct.rna2d is
    not among the sources. Section 6 has it a structure-validity parser: the
    string itself when it is a valid structure, an error otherwise. *)
Variable valid_structure : string → bool.
Definition ViennaStructure (struct : string) : Exc string :=
  if valid_structure struct then Return struct
  else Raise (ValueError "not a valid Vienna structure").

(** Modelled from the spec: [on()] of a flag Parameter sets its on/off
    state (section 3, lifecycle of a Parameter). *)
Definition on (flag : string) (self : CommandLineApplication)
  : CommandLineApplication :=
  {| WorkingDir := WorkingDir self;
     Parameters := λ k,
       if bool_decide (k = flag)
       then let p := Parameters self k in
            {| Prefix := Prefix p; Name := Name p; Delimiter := Delimiter p;
               Value := Value p; On := true |}
       else Parameters self k;
     _input_filename := _input_filename self |}.

Definition get_constrained_fold (sequence constraint_string : string)
    (params_ : option params) (w : World)
  : Exc (string * string * string) * World :=
  if bool_decide (sequence = "") then
    (Raise (ValueError "No sequence found!"), w)
  else if bool_decide (constraint_string = "") then
    (Raise (ValueError "No constraint string found!"), w)
  else if negb (String.length sequence =? String.length constraint_string)%nat then
    (Raise (ValueError "Sequence and constraint string are not same length!"), w)
  else
    let app := on "-C" (RNAfold_new params_) in
    match call "RNAfold" app [sequence; constraint_string] w with
    | (Raise e, w1) => (Raise e, w1)
    | (Return res, w1) =>
        match MinimalRnaalifoldParser (StdOut_readlines res) with
        | Raise e => (Raise e, w1)
        | Return [] => (Raise (IndexError "list index out of range"), w1)
        | Return (first :: _) => (Return first, cleanUp res w1)
        end
    end.

Definition plot_from_seq_and_struct (seq struct : string)
    (seqname : option string) (params_ : option params) (w : World)
  : Exc string * World :=
  match ViennaStructure struct with
  | Raise e => (Raise e, w)
  | Return struct =>
      if negb (String.length seq =? String.length struct)%nat then
        (Raise (DataError "Sequence and structure are not same length!"), w)
      else
        let app := RNAplot_new "/tmp" params_ in
        let seqname := default _get_tmp_seqname seqname in
        match call "RNAplot" app [">" +:+ seqname; seq; struct] w with
        | (Raise e, w1) => (Raise e, w1)
        | (Return res, w1) =>
            match read_result res (seqname +:+ "_ss") with
            | Raise e => (Raise e, w1)
            | Return plot => (Return plot, cleanUp res w1)
            end
        end
  end.

End WithCollaborators.

End Helpers.

(** ** cove.py *)

Module Cove.

(** [for d in data]: the records of a list, the characters of a string. *)
Definition iterate (d : data) : list string :=
  match d with
  | PyList records => records
  | PyStr s => (λ c, String c "") <$> list_ascii_of_string s
  end.

(** [open(filename, 'w')], the writes and [close()]: afterwards the file
    holds what was written, whatever it held before. *)
Definition write_file (filename content : string) (w : World) : World :=
  {| files := <[ filename := content ]> (files w); launched := launched w |}.

Definition set_input_filename (filename : string) (self : CommandLineApplication)
  : CommandLineApplication :=
  {| WorkingDir := WorkingDir self;
     Parameters := Parameters self;
     _input_filename := Some filename |}.

(** [_get_result_paths] of class Covet. For a list the path is read from
    [self._input_filename]: [''.join] of a list holding None raises. *)
Definition Covet_get_result_paths (self : CommandLineApplication) (d : data)
  : Exc (gmap string ResultPath) :=
  inputPath ← match d with
              | PyStr path => Return path
              | PyList _ =>
                  match _input_filename self with
                  | Some filename => Return (join "" [filename])
                  | None =>
                      Raise (TypeError "sequence item 0: expected string, NoneType found")
                  end
              end;
  let result := <[ "cm" := {| Path := inputPath +:+ ".cm";
                              IsWritten := IsWritten_default |} ]> ∅ in
  match _input_filename self with
  | Some filename =>
      Return (<[ "_input_filename" := {| Path := filename;
                                         IsWritten := IsWritten_default |} ]> result)
  | None => Return result
  end.

Section WithBase.

(** The methods of the base class the wrappers call through [super], and
    the temporary-name generator; cogent.app.util is not among the sources.
    [getTmpFilename] stands for the name drawn (at random) in the run
    under consideration, given the directory. *)
Variable base_input_as_string : CommandLineApplication → string → string.
Variable base_input_as_lines :
  CommandLineApplication → data → World →
  Exc string * CommandLineApplication * World.
Variable getTmpFilename : string → string.

(** *** class Covet *)

Definition Covet_input_as_string (self : CommandLineApplication) (filename : string)
  : string :=
  join " " [filename +:+ ".cm"; base_input_as_string self filename].

Definition Covet_input_as_lines (self : CommandLineApplication) (d : data)
    (w : World) : Exc string * CommandLineApplication * World :=
  let filename := getTmpFilename (WorkingDir self) in
  let self := set_input_filename filename self in
  let data_to_file := join newline (strip [NL] <$> iterate d) in
  let w := write_file filename (data_to_file +:+ newline) w in
  (Return (join " " [filename +:+ ".cm"; filename]), self, w).

(** *** class Coves *)

Definition Coves_input_as_string (self : CommandLineApplication) (filename : string)
  : string :=
  join " " [filename +:+ ".cm"; base_input_as_string self filename].

(** *** class Covee *)

Definition Covee_input_as_string (self : CommandLineApplication) (filename : string)
  : string :=
  join " " [filename +:+ ".cm"; base_input_as_string self filename].

(** [data+'.cm'] is evaluated first: on a list it raises, a list and a
    string cannot be concatenated. *)
Definition Covee_input_as_lines (self : CommandLineApplication) (d : data)
    (w : World) : Exc string * CommandLineApplication * World :=
  match d with
  | PyList _ =>
      (Raise (TypeError "can only concatenate list (not str) to list"), self, w)
  | PyStr s =>
      match base_input_as_lines self d w with
      | (Return tmp, self, w) => (Return (join "" [s +:+ ".cm"; tmp]), self, w)
      | (Raise e, self, w) => (Raise e, self, w)
      end
  end.

(** *** class Covea *)

Definition Covea_input_as_string (self : CommandLineApplication) (filename : string)
  : string :=
  join " " [filename +:+ ".cm"; base_input_as_string self filename].

Definition Covea_input_as_lines (self : CommandLineApplication) (d : data)
    (w : World) : Exc string * CommandLineApplication * World :=
  match d with
  | PyList _ =>
      (Raise (TypeError "can only concatenate list (not str) to list"), self, w)
  | PyStr s =>
      match base_input_as_lines self d w with
      | (Return tmp, self, w) => (Return (join "" [s +:+ ".cm"; tmp]), self, w)
      | (Raise e, self, w) => (Raise e, self, w)
      end
  end.

End WithBase.

End Cove.

(** ** Vocabulary of the properties *)

(** The name-marked records of an input, the other (anonymous) ones, and the
    bare names the former declare. *)
Definition name_marked (records : list string) : list string :=
  filter (λ r, startswith ">" r = true) records.
Definition anonymous (records : list string) : list string :=
  filter (λ r, startswith ">" r ≠ true) records.
Definition bare_name (record : string) : string := strip [">"%char; NL] record.
Definition names (records : list string) : list string :=
  bare_name <$> name_marked records.

(** The named artifact groups of a mapping, one per key of the form
    name_ss, and whether the default-named group is registered. *)
Definition named_groups (m : gmap string ResultPath) : gset string :=
  filter (λ k, endswith "_ss" k = true) (dom m).
Definition default_group (m : gmap string ResultPath) : Prop :=
  is_Some (m !! "SS").

(** No entry of the mapping points to the default structure file. *)
Definition no_default_entry (m : gmap string ResultPath) : Prop :=
  ∀ k rp, m !! k = Some rp → endswith "rna.ps" (Path rp) = false.

(** A string all of whose characters are among [chars]; the first and the
    last character of a string. *)
Definition made_of (chars : list ascii) (s : string) : Prop :=
  ∀ c, c ∈ list_ascii_of_string s → c ∈ chars.
Definition first_char (s : string) : option ascii :=
  match s with
  | EmptyString => None
  | String c _ => Some c
  end.
Fixpoint last_char (s : string) : option ascii :=
  match s with
  | EmptyString => None
  | String c EmptyString => Some c
  | String _ s' => last_char s'
  end.

(** What reading a file back with [readlines] gives, if the file exists. *)
Definition read_back (w : World) (filename : string) : option (list string) :=
  readlines <$> files w !! filename.

(** The registration of the claim on N records of which K are name-marked:
    K named groups, and the default group exactly when the anonymous count
    divided by the tool's divisor exceeds K. *)
Definition registers_as_claimed (divisor : Z) (records : list string)
    (m : gmap string ResultPath) : Prop :=
  size (named_groups m) = length (name_marked records)
  ∧ (default_group m
     ↔ Z.of_nat (length (anonymous records)) / divisor
       > Z.of_nat (length (name_marked records))).

(** A record as it is read back when it was written unchanged apart from
    the newlines at its end, which become exactly one. *)
Definition terminated (record : string) : string :=
  rstrip [NL] record +:+ newline.

(** ** Concrete instances *)

Definition off (name : string) : Param :=
  {| Prefix := "-"; Name := name; Delimiter := " "; Value := None; On := false |}.
Definition valued (name value : string) : Param :=
  {| Prefix := "-"; Name := name; Delimiter := " "; Value := Some value; On := true |}.

(** An instance working in /tmp/ with every Parameter off. *)
Definition plain_app : CommandLineApplication :=
  {| WorkingDir := "/tmp/";
     Parameters := λ flag, off (String.substring 1 (String.length flag) flag);
     _input_filename := None |}.

(** The same with the partition-function Parameter on. *)
Definition app_with_p : CommandLineApplication :=
  {| WorkingDir := "/tmp/";
     Parameters := λ flag,
       if bool_decide (flag = "-p")
       then {| Prefix := "-"; Name := "p"; Delimiter := ""; Value := None; On := true |}
       else off (String.substring 1 (String.length flag) flag);
     _input_filename := None |}.

(** The same as [plain_app] with the output format set to [value]. *)
Definition app_with_o (value : string) : CommandLineApplication :=
  {| WorkingDir := "/tmp/";
     Parameters := λ flag,
       if bool_decide (flag = "-o") then valued "o" value
       else off (String.substring 1 (String.length flag) flag);
     _input_filename := None |}.

Definition empty_world : World := {| files := ∅; launched := [] |}.

(** A world whose only file holds one named sequence. *)
Definition world_with_input : World :=
  {| files := {[ "/tmp/in.fa" := ">seq1" +:+ newline +:+ "ACGUACGU" +:+ newline ]};
     launched := [] |}.

(** [_absolute] as the base class has it for a relative name. *)
Definition absolute_in_WorkingDir (self : CommandLineApplication) (path : string)
  : string := WorkingDir self +:+ path.

Definition tmp_in (dir : string) : string := dir +:+ "tmpAbCdEfGh.txt".

(** Collaborators of the helper functions whose external command succeeds
    at once and leaves the files as they are. *)
Definition run_stub (command : string) (app : CommandLineApplication)
    (input : list string) (fs : gmap string string)
  : Exc unit * gmap string string := (Return (), fs).
Definition parser_stub (lines : list string) : Exc (list (string * string * string)) :=
  Return [("ACGU", "(..)", "-0.1")].
Definition valid_dot_bracket (struct : string) : bool :=
  forallb (λ c, bool_decide (c ∈ ["("%char; ")"%char; "."%char]))
    (list_ascii_of_string struct).

(** ** Strings *)

Lemma append_nil_l (s : string) : "" +:+ s = s.
Proof. reflexivity. Qed.

Lemma append_cons (c : ascii) (a b : string) :
  String c a +:+ b = String c (a +:+ b).
Proof. reflexivity. Qed.

Lemma append_nil_r (s : string) : s +:+ "" = s.
Proof. induction s as [|c s IH]; [done|]. by rewrite append_cons, IH. Qed.

Lemma append_assoc (a b c : string) : (a +:+ b) +:+ c = a +:+ (b +:+ c).
Proof. induction a as [|x a IH]; [done|]. by rewrite !append_cons, IH. Qed.

Lemma list_ascii_of_string_append (a b : string) :
  list_ascii_of_string (a +:+ b) = list_ascii_of_string a ++ list_ascii_of_string b.
Proof. induction a as [|x a IH]; [done|]. rewrite append_cons. cbn. by rewrite IH. Qed.

Lemma list_ascii_of_string_inj (a b : string) :
  list_ascii_of_string a = list_ascii_of_string b → a = b.
Proof.
  intros H. rewrite <- (string_of_list_ascii_of_string a),
    <- (string_of_list_ascii_of_string b). by rewrite H.
Qed.

Lemma length_list_ascii_of_string (a : string) :
  length (list_ascii_of_string a) = String.length a.
Proof. induction a as [|x a IH]; [done|]. cbn. by rewrite IH. Qed.

(** Two strings with suffixes of one length are equal only when both the
    stems and the suffixes are. *)
Lemma append_eq_suffix (a b s t : string) :
  String.length s = String.length t → a +:+ s = b +:+ t → a = b ∧ s = t.
Proof.
  intros Hlen Heq. apply (f_equal list_ascii_of_string) in Heq.
  rewrite !list_ascii_of_string_append in Heq.
  apply app_inj_2 in Heq as [Ha Hs].
  - split; by apply list_ascii_of_string_inj.
  - by rewrite !length_list_ascii_of_string.
Qed.

Lemma append_suffix_cancel (a b s : string) : a +:+ s = b +:+ s → a = b.
Proof. intros H. by apply append_eq_suffix in H as [-> _]. Qed.

Global Instance append_suffix_inj (s : string) : Inj (=) (=) (λ a, a +:+ s).
Proof. intros a b. apply append_suffix_cancel. Qed.

Lemma length_append (a b : string) :
  String.length (a +:+ b) = (String.length a + String.length b)%nat.
Proof. induction a as [|x a IH]; [done|]. rewrite append_cons. cbn. by rewrite IH. Qed.

Lemma endswith_unfold (suf s : string) :
  endswith suf s =
  if String.eqb s suf then true
  else match s with
       | EmptyString => false
       | String _ s' => endswith suf s'
       end.
Proof. by destruct s. Qed.

Lemma endswith_append (a suf : string) : endswith suf (a +:+ suf) = true.
Proof.
  induction a as [|x a IH]; rewrite endswith_unfold.
  - by rewrite append_nil_l, String.eqb_refl.
  - rewrite append_cons, IH. by destruct (String.eqb _ _).
Qed.

Lemma endswith_inv (suf s : string) :
  endswith suf s = true → ∃ a, s = a +:+ suf.
Proof.
  induction s as [|x s IH]; rewrite endswith_unfold.
  - destruct (String.eqb_spec "" suf) as [<-|_]; [by exists ""|done].
  - destruct (String.eqb_spec (String x s) suf) as [<-|_].
    + intros _. by exists "".
    + intros [a ->]%IH. by exists (String x a).
Qed.

Lemma endswith_other (a suf suf' : string) :
  String.length suf = String.length suf' → suf ≠ suf' →
  endswith suf (a +:+ suf') = false.
Proof.
  intros Hlen Hne. destruct (endswith suf (a +:+ suf')) eqn:E; [|done].
  apply endswith_inv in E as [b E].
  apply append_eq_suffix in E as [_ E]; [|done]. by destruct Hne.
Qed.

Lemma endswith_short (suf s : string) :
  (String.length s < String.length suf)%nat → endswith suf s = false.
Proof.
  intros Hlen. destruct (endswith suf s) eqn:E; [|done].
  apply endswith_inv in E as [a ->]. rewrite length_append in Hlen. lia.
Qed.

(** ** The builtins on small inputs *)

Example strip_both_ends :
  strip [">"%char; NL] (">>a>b>" +:+ newline) = "a>b"
  ∧ strip [">"%char; NL] ">" = ""
  ∧ strip [NL] (newline +:+ "a" +:+ newline +:+ newline) = "a".
Proof. by repeat split. Qed.

Example readlines_cuts_after_newlines :
  readlines ("ab" +:+ newline +:+ newline +:+ "c")
  = ["ab" +:+ newline; newline; "c"]
  ∧ readlines ("ab" +:+ newline) = ["ab" +:+ newline]
  ∧ readlines "" = [].
Proof. by repeat split. Qed.

Example join_puts_separators_between :
  join " " ["a"; "b"; "c"] = "a b c" ∧ join " " ["a"] = "a" ∧ join " " [] = "".
Proof. by repeat split. Qed.

Example FILETYPE_TO_EXTENSION_is_not_global :
  RNAplot.load_global "FILETYPE_TO_EXTENSION"
  = Raise (NameError "FILETYPE_TO_EXTENSION")
  ∧ RNAplot.load_global "RNAplot" = Return RNAplot.Other
  ∧ RNAplot.FILETYPE_TO_EXTENSION !! "xrna" = Some ".ss".
Proof. by repeat split. Qed.

(** ** Keys of a result mapping *)

Lemma ss_key_not_dp_key (a b : string) : a +:+ "_ss" ≠ b +:+ "_dp".
Proof. intros H. by apply append_eq_suffix in H as [_ ?]. Qed.

Lemma named_key_not_default (a suf : string) :
  String.length suf = 3%nat → a +:+ suf ≠ "SS" ∧ a +:+ suf ≠ "DP".
Proof.
  intros Hlen. split; intros H; apply (f_equal String.length) in H;
    rewrite length_append, Hlen in H; cbn in H; lia.
Qed.

Lemma size_ss_keys (l : list string) :
  size (list_to_set ((λ n, n +:+ "_ss") <$> l) : gset string)
  = length (remove_dups l).
Proof.
  transitivity (size (list_to_set ((λ n, n +:+ "_ss") <$> remove_dups l) : gset string)).
  - f_equal. apply set_eq. intros k.
    rewrite !elem_of_list_to_set, !list_elem_of_fmap.
    by setoid_rewrite elem_of_remove_dups.
  - rewrite size_list_to_set, length_fmap; [done|].
    apply (NoDup_fmap_2 _), NoDup_remove_dups.
Qed.

(** ** The scan of RNAfold *)

Lemma RNAfold_scan_snoc self records item :
  RNAfold.scan self (records ++ [item])
  = RNAfold.loop_body self (RNAfold.scan self records) item.
Proof. unfold RNAfold.scan. by rewrite fold_left_app. Qed.

Lemma name_marked_snoc records item :
  name_marked (records ++ [item])
  = name_marked records ++ (if startswith ">" item then [item] else []).
Proof.
  unfold name_marked. rewrite filter_app. f_equal.
  rewrite filter_cons, filter_nil.
  destruct (startswith ">" item); case_decide; congruence.
Qed.

Lemma anonymous_snoc records item :
  anonymous (records ++ [item])
  = anonymous records ++ (if startswith ">" item then [] else [item]).
Proof.
  unfold anonymous. rewrite filter_app. f_equal.
  rewrite filter_cons, filter_nil.
  destruct (startswith ">" item); case_decide; congruence.
Qed.

Lemma names_snoc records item :
  names (records ++ [item])
  = names records ++ (if startswith ">" item then [bare_name item] else []).
Proof.
  unfold names. rewrite name_marked_snoc, fmap_app.
  by destruct (startswith ">" item).
Qed.

(** The two counters count the name-marked and the anonymous records. *)
Lemma RNAfold_scan_counters self records :
  RNAfold.name_counter (RNAfold.scan self records)
    = Z.of_nat (length (name_marked records))
  ∧ RNAfold.seq_counter (RNAfold.scan self records)
    = Z.of_nat (length (anonymous records)).
Proof.
  induction records as [|item records [IHn IHs]] using rev_ind; [done|].
  rewrite RNAfold_scan_snoc, name_marked_snoc, anonymous_snoc, !length_app.
  unfold RNAfold.loop_body.
  destruct (startswith ">" item); cbn; rewrite IHn, IHs; lia.
Qed.

(** Every bare name has its two entries, whose values depend on the name
    only. *)
Lemma RNAfold_scan_named self records n :
  n ∈ names records →
  RNAfold.result (RNAfold.scan self records) !! (n +:+ "_ss")
    = Some {| Path := (WorkingDir self +:+ n) +:+ "_ss.ps";
              IsWritten := IsWritten_default |}
  ∧ RNAfold.result (RNAfold.scan self records) !! (n +:+ "_dp")
    = Some {| Path := (WorkingDir self +:+ n) +:+ "_dp.ps";
              IsWritten := isOn (Parameters self "-p") |}.
Proof.
  induction records as [|item records IH] using rev_ind.
  { by intros ?%elem_of_nil. }
  rewrite names_snoc, RNAfold_scan_snoc. unfold RNAfold.loop_body.
  destruct (startswith ">" item); cbn.
  - fold (bare_name item). intros Hn.
    destruct (decide (n = bare_name item)) as [->|Hne].
    + rewrite lookup_insert_ne by (symmetry; apply ss_key_not_dp_key).
      by rewrite !lookup_insert_eq.
    + apply elem_of_app in Hn as [Hn|Hn%list_elem_of_singleton]; [|done].
      apply IH in Hn as [Hss Hdp].
      rewrite lookup_insert_ne by (symmetry; apply ss_key_not_dp_key).
      rewrite lookup_insert_ne by (intros ?%append_suffix_cancel; done).
      rewrite lookup_insert_ne by (intros ?%append_suffix_cancel; done).
      rewrite lookup_insert_ne by apply ss_key_not_dp_key.
      done.
  - rewrite app_nil_r. apply IH.
Qed.

Lemma RNAfold_scan_dom self records :
  dom (RNAfold.result (RNAfold.scan self records))
  = list_to_set ((λ n, n +:+ "_ss") <$> names records)
    ∪ list_to_set ((λ n, n +:+ "_dp") <$> names records).
Proof.
  induction records as [|item records IH] using rev_ind.
  { cbn. rewrite dom_empty_L. set_solver. }
  rewrite names_snoc, RNAfold_scan_snoc. unfold RNAfold.loop_body.
  destruct (startswith ">" item); cbn.
  - fold (bare_name item). rewrite !dom_insert_L, IH, !fmap_app, !list_to_set_app_L.
    cbn. set_solver.
  - by rewrite app_nil_r.
Qed.

Lemma RNAfold_scan_default_free self records :
  RNAfold.result (RNAfold.scan self records) !! "SS" = None
  ∧ RNAfold.result (RNAfold.scan self records) !! "DP" = None.
Proof.
  rewrite <- !not_elem_of_dom, RNAfold_scan_dom.
  split; intros [H|H]%elem_of_union;
    apply elem_of_list_to_set, list_elem_of_fmap in H as (n & H & _);
    symmetry in H; by apply named_key_not_default in H.
Qed.

(** ** The scan of RNAplot *)

Lemma RNAplot_scan_snoc self ext records item :
  RNAplot.scan self ext (records ++ [item])
  = RNAplot.loop_body self ext (RNAplot.scan self ext records) item.
Proof. unfold RNAplot.scan. by rewrite fold_left_app. Qed.

Lemma RNAplot_scan_counters self ext records :
  RNAplot.name_counter (RNAplot.scan self ext records)
    = Z.of_nat (length (name_marked records))
  ∧ RNAplot.seq_counter (RNAplot.scan self ext records)
    = Z.of_nat (length (anonymous records)).
Proof.
  induction records as [|item records [IHn IHs]] using rev_ind; [done|].
  rewrite RNAplot_scan_snoc, name_marked_snoc, anonymous_snoc, !length_app.
  unfold RNAplot.loop_body.
  destruct (startswith ">" item); cbn; rewrite IHn, IHs; lia.
Qed.

Lemma RNAplot_scan_named self ext records n :
  n ∈ names records →
  RNAplot.result (RNAplot.scan self ext records) !! (n +:+ "_ss")
    = Some {| Path := ((WorkingDir self +:+ n) +:+ "_ss") +:+ ext;
              IsWritten := IsWritten_default |}.
Proof.
  induction records as [|item records IH] using rev_ind.
  { by intros ?%elem_of_nil. }
  rewrite names_snoc, RNAplot_scan_snoc. unfold RNAplot.loop_body.
  destruct (startswith ">" item); cbn.
  - fold (bare_name item). intros Hn.
    destruct (decide (n = bare_name item)) as [->|Hne].
    + by rewrite lookup_insert_eq.
    + apply elem_of_app in Hn as [Hn|Hn%list_elem_of_singleton]; [|done].
      rewrite lookup_insert_ne by (intros ?%append_suffix_cancel; done).
      by apply IH.
  - rewrite app_nil_r. apply IH.
Qed.

Lemma RNAplot_scan_dom self ext records :
  dom (RNAplot.result (RNAplot.scan self ext records))
  = list_to_set ((λ n, n +:+ "_ss") <$> names records).
Proof.
  induction records as [|item records IH] using rev_ind.
  { cbn. by rewrite dom_empty_L. }
  rewrite names_snoc, RNAplot_scan_snoc. unfold RNAplot.loop_body.
  destruct (startswith ">" item); cbn.
  - fold (bare_name item). rewrite !dom_insert_L, IH, !fmap_app, !list_to_set_app_L.
    cbn. set_solver.
  - by rewrite app_nil_r.
Qed.

Lemma RNAplot_scan_default_free self ext records :
  RNAplot.result (RNAplot.scan self ext records) !! "SS" = None.
Proof.
  rewrite <- not_elem_of_dom, RNAplot_scan_dom.
  intros (n & H & _)%elem_of_list_to_set%list_elem_of_fmap.
  symmetry in H. by apply named_key_not_default in H.
Qed.

(** ** Named groups *)

Lemma elem_of_named_groups (m : gmap string ResultPath) k :
  k ∈ named_groups m ↔ endswith "_ss" k = true ∧ is_Some (m !! k).
Proof. unfold named_groups. by rewrite elem_of_filter, elem_of_dom. Qed.

(** Registering a default entry adds no named group. *)
Lemma named_groups_insert_default k v (m : gmap string ResultPath) :
  k = "SS" ∨ k = "DP" → named_groups (<[ k := v ]> m) = named_groups m.
Proof.
  intros Hk. apply set_eq. intros k'. rewrite !elem_of_named_groups.
  destruct (decide (k = k')) as [<-|Hne].
  - split; intros [E _]; by destruct Hk as [-> | ->].
  - by rewrite lookup_insert_ne.
Qed.

Lemma named_groups_of_dom (m : gmap string ResultPath) (l l' : list string) :
  dom m = list_to_set ((λ n, n +:+ "_ss") <$> l)
          ∪ list_to_set ((λ n, n +:+ "_dp") <$> l') →
  named_groups m = list_to_set ((λ n, n +:+ "_ss") <$> l).
Proof.
  intros Hdom. apply set_eq. intros k.
  rewrite elem_of_named_groups, <- elem_of_dom, Hdom, elem_of_union,
    !elem_of_list_to_set, !list_elem_of_fmap.
  split.
  - intros [E [H|(n & -> & _)]]; [done|].
    by rewrite endswith_other in E.
  - intros (n & -> & Hn). split; [apply endswith_append|]. left. eauto.
Qed.

Lemma RNAfold_scan_named_groups self records :
  named_groups (RNAfold.result (RNAfold.scan self records))
  = list_to_set ((λ n, n +:+ "_ss") <$> names records).
Proof. eapply named_groups_of_dom, RNAfold_scan_dom. Qed.

Lemma RNAplot_scan_named_groups self ext records :
  named_groups (RNAplot.result (RNAplot.scan self ext records))
  = list_to_set ((λ n, n +:+ "_ss") <$> names records).
Proof.
  apply (named_groups_of_dom _ _ []). rewrite RNAplot_scan_dom. cbn. set_solver.
Qed.

(** ** RNAfold: result-path resolution *)

Lemma RNAfold_written_default self records :
  (RNAfold.seq_counter (RNAfold.scan self records)
   - RNAfold.name_counter (RNAfold.scan self records) >? 0) = true
  ↔ (length (name_marked records) < length (anonymous records))%nat.
Proof.
  destruct (RNAfold_scan_counters self records) as [-> ->].
  rewrite Z.gtb_lt. lia.
Qed.

Lemma name_marked_elem records item :
  item ∈ records → startswith ">" item = true → bare_name item ∈ names records.
Proof.
  intros Hin Hstart. unfold names. apply list_elem_of_fmap_2.
  unfold name_marked. by apply list_elem_of_filter.
Qed.

(** C7: called on the one-record list ['ACGUACGU'], RNAfold's result-path
    resolution returns a mapping whose default secondary-structure entry
    'SS' has the path WorkingDir + 'rna.ps', which ends in 'rna.ps', and is
    tagged as written. *)
Theorem RNAfold_one_anonymous_record self w :
  ∃ m, RNAfold._get_result_paths self w (PyList ["ACGUACGU"]) = Return m
     ∧ m !! "SS" = Some {| Path := WorkingDir self +:+ "rna.ps"; IsWritten := true |}
     ∧ endswith "rna.ps" (WorkingDir self +:+ "rna.ps") = true.
Proof.
  eexists. split; [reflexivity|]. split.
  - by rewrite lookup_insert_ne, lookup_insert_eq.
  - apply endswith_append.
Qed.

(** C9: for every input list, the empty one included, the mapping RNAfold's
    resolution returns has the keys 'SS' and 'DP', and the 'SS' entry is
    tagged as written if and only if there are strictly more anonymous
    records than name-marked ones. *)
Theorem RNAfold_default_keys_always_present self w records :
  ∃ m ss dp,
    RNAfold._get_result_paths self w (PyList records) = Return m
    ∧ m !! "SS" = Some ss
    ∧ m !! "DP" = Some dp
    ∧ (IsWritten ss = true
       ↔ (length (name_marked records) < length (anonymous records))%nat).
Proof.
  do 3 eexists. split; [reflexivity|]. split; [|split].
  - by rewrite lookup_insert_ne, lookup_insert_eq.
  - by rewrite lookup_insert_eq.
  - apply RNAfold_written_default.
Qed.

(** C6: in the mapping RNAfold's resolution returns, the entry name_dp of
    every name-marked record is tagged as written if and only if the
    Parameter '-p' is on, and the default 'DP' entry is tagged as written
    if and only if '-p' is on and there are strictly more anonymous records
    than name-marked ones. *)
Theorem RNAfold_dot_plots_follow_p self w records :
  ∃ m dp,
    RNAfold._get_result_paths self w (PyList records) = Return m
    ∧ (∀ item, item ∈ records → startswith ">" item = true →
         ∃ rp, m !! (bare_name item +:+ "_dp") = Some rp
             ∧ (IsWritten rp = true ↔ isOn (Parameters self "-p") = true))
    ∧ m !! "DP" = Some dp
    ∧ (IsWritten dp = true
       ↔ isOn (Parameters self "-p") = true
         ∧ (length (name_marked records) < length (anonymous records))%nat).
Proof.
  do 2 eexists. split; [reflexivity|]. split; [|split].
  - intros item Hin Hstart.
    destruct (RNAfold_scan_named self records (bare_name item)) as [_ Hdp].
    { by apply name_marked_elem. }
    destruct (named_key_not_default (bare_name item) "_dp") as [? ?]; [done|].
    eexists. split; [by rewrite !lookup_insert_ne|reflexivity].
  - by rewrite lookup_insert_eq.
  - cbn. rewrite andb_true_iff, RNAfold_written_default. done.
Qed.

Lemma RNAfold_dot_plots_follow_p_witness :
  ∃ rp, RNAfold._get_result_paths app_with_p empty_world
          (PyList [">seq1"; "ACGUACGU"]) = Return rp.1
      ∧ rp.1 !! "seq1_dp" = Some rp.2 ∧ IsWritten rp.2 = true.
Proof.
  destruct (RNAfold_dot_plots_follow_p app_with_p empty_world
              [">seq1"; "ACGUACGU"]) as (m & dp & Hm & Hnamed & _).
  destruct (Hnamed ">seq1") as (rp & Hrp & Hwritten).
  - apply list_elem_of_here.
  - reflexivity.
  - exists (m, rp). split; [exact Hm|]. split; [exact Hrp|].
    apply Hwritten. reflexivity.
Defined.

(** C1, the claim as stated fails: on ['>seq1', 'ACGUACGU'] the mapping does
    hold a default entry, 'SS', whose path is /tmp/rna.ps; it is tagged as
    not written. *)
Lemma RNAfold_scenario_A_keeps_default_entry :
  ∃ m, RNAfold._get_result_paths plain_app empty_world
         (PyList [">seq1"; "ACGUACGU"]) = Return m
     ∧ m !! "SS" = Some {| Path := "/tmp/rna.ps"; IsWritten := false |}
     ∧ ¬ no_default_entry m.
Proof.
  eexists. split; [reflexivity|]. split; [by vm_compute|].
  intros H. specialize (H "SS" {| Path := "/tmp/rna.ps"; IsWritten := false |}).
  by vm_compute in H; specialize (H eq_refl).
Qed.

(** C1, amended: on ['>seq1', 'ACGUACGU'] the mapping RNAfold's resolution
    returns has the key 'seq1_ss' with a path ending in '_ss.ps', and it has
    the default entry 'SS', with path WorkingDir + 'rna.ps', tagged as not
    written. *)
Theorem RNAfold_scenario_A_mapping self w :
  ∃ m ss,
    RNAfold._get_result_paths self w (PyList [">seq1"; "ACGUACGU"]) = Return m
    ∧ m !! "seq1_ss" = Some ss
    ∧ endswith "_ss.ps" (Path ss) = true
    ∧ m !! "SS" = Some {| Path := WorkingDir self +:+ "rna.ps"; IsWritten := false |}.
Proof.
  eexists. exists {| Path := (WorkingDir self +:+ "seq1") +:+ "_ss.ps";
                     IsWritten := IsWritten_default |}.
  split; [reflexivity|]. split; [|split].
  - reflexivity.
  - apply endswith_append.
  - reflexivity.
Qed.

(** ** RNAplot: the extension and result-path resolution *)

(** With '-o' on the lookup of the table's name fails, whatever the value. *)
Lemma RNAplot_extension_on _absolute self :
  isOn (Parameters self "-o") = true →
  RNAplot._get_outfile_extension _absolute self
  = Raise (NameError "FILETYPE_TO_EXTENSION").
Proof. intros Hon. unfold RNAplot._get_outfile_extension. by rewrite Hon. Qed.

Lemma RNAplot_extension_off _absolute self :
  isOn (Parameters self "-o") = false →
  RNAplot._get_outfile_extension _absolute self = Return ".ps".
Proof. intros Hoff. unfold RNAplot._get_outfile_extension. by rewrite Hoff. Qed.

Lemma RNAplot_get_result_paths_list _absolute self w records ext :
  RNAplot._get_outfile_extension _absolute self = Return ext →
  RNAplot._get_result_paths _absolute self w (PyList records)
  = let l := RNAplot.scan self ext records in
    if (RNAplot.seq_counter l / 2 - RNAplot.name_counter l >? 0)
    then Return (<[ "SS" := {| Path := (WorkingDir self +:+ "rna") +:+ ext;
                               IsWritten := true |} ]> (RNAplot.result l))
    else Return (RNAplot.result l).
Proof. intros Hext. unfold RNAplot._get_result_paths. cbn. by rewrite Hext. Qed.

Lemma RNAplot_scan_lookup self ext records k rp :
  RNAplot.result (RNAplot.scan self ext records) !! k = Some rp →
  ∃ n, n ∈ names records ∧ k = n +:+ "_ss"
     ∧ rp = {| Path := ((WorkingDir self +:+ n) +:+ "_ss") +:+ ext;
               IsWritten := IsWritten_default |}.
Proof.
  intros Hk. assert (k ∈ dom (RNAplot.result (RNAplot.scan self ext records)))
    as Hdom by (apply elem_of_dom; eauto).
  rewrite RNAplot_scan_dom in Hdom.
  apply elem_of_list_to_set, list_elem_of_fmap in Hdom as (n & -> & Hn).
  exists n. split; [done|]. split; [done|].
  rewrite (RNAplot_scan_named self ext records n Hn) in Hk. congruence.
Qed.

(** C2: when '-o' is on and holds a value that is not in the table of
    extensions, RNAplot's computation of the extension raises, and so does
    its result-path resolution on any input; when '-o' is not on, the
    extension is '.ps', and every path of the mapping returned on a list
    ends in it. *)
Theorem RNAplot_unknown_format_raises _absolute self w :
  (isOn (Parameters self "-o") = true →
   RNAplot.FILETYPE_TO_EXTENSION !! str_Value (Value (Parameters self "-o")) = None →
   raises (RNAplot._get_outfile_extension _absolute self)
   ∧ ∀ d, raises (RNAplot._get_result_paths _absolute self w d))
  ∧ (isOn (Parameters self "-o") = false →
     RNAplot._get_outfile_extension _absolute self = Return ".ps"
     ∧ ∀ records, ∃ m,
         RNAplot._get_result_paths _absolute self w (PyList records) = Return m
         ∧ ∀ k rp, m !! k = Some rp → endswith ".ps" (Path rp) = true).
Proof.
  split.
  - intros Hon _. pose proof (RNAplot_extension_on _absolute self Hon) as Hext.
    split; [by eexists|]. intros d. unfold RNAplot._get_result_paths.
    destruct (lines_of w d) as [records|e]; cbn; [|by eexists].
    rewrite Hext. by eexists.
  - intros Hoff. pose proof (RNAplot_extension_off _absolute self Hoff) as Hext.
    split; [done|]. intros records.
    rewrite (RNAplot_get_result_paths_list _ _ _ _ _ Hext). cbn zeta.
    destruct (_ >? 0); eexists; (split; [reflexivity|]); intros k rp Hk.
    + destruct (decide (k = "SS")) as [->|Hne].
      * rewrite lookup_insert_eq in Hk. injection Hk as <-. apply endswith_append.
      * rewrite lookup_insert_ne in Hk by done.
        apply RNAplot_scan_lookup in Hk as (n & _ & _ & ->). apply endswith_append.
    + apply RNAplot_scan_lookup in Hk as (n & _ & _ & ->). apply endswith_append.
Qed.

Lemma RNAplot_unknown_format_raises_witness :
  raises (RNAplot._get_result_paths absolute_in_WorkingDir (app_with_o "pdf")
            empty_world (PyList [">seq1"; "ACGU"; "(())"]))
  ∧ RNAplot._get_outfile_extension absolute_in_WorkingDir plain_app = Return ".ps".
Proof.
  split.
  - apply (RNAplot_unknown_format_raises absolute_in_WorkingDir
             (app_with_o "pdf") empty_world); reflexivity.
  - apply (RNAplot_unknown_format_raises absolute_in_WorkingDir
             plain_app empty_world). reflexivity.
Defined.

(** ** Counting the groups *)

Lemma length_remove_dups_le {A} `{EqDecision A} (l : list A) :
  (length (remove_dups l) ≤ length l)%nat.
Proof.
  induction l as [|x l IH]; cbn; [done|]. case_decide; cbn; lia.
Qed.

Lemma remove_dups_NoDup {A} `{EqDecision A} (l : list A) :
  NoDup l → remove_dups l = l.
Proof.
  induction 1 as [|x l Hx _ IH]; cbn; [done|].
  destruct (decide_rel _ _ _); [done|]. by rewrite IH.
Qed.

Lemma length_names records : length (names records) = length (name_marked records).
Proof. unfold names. by rewrite length_fmap. Qed.

(** With pairwise distinct names there are as many groups as name-marked
    records. *)
Lemma distinct_names_count records :
  NoDup (names records) →
  length (remove_dups (names records)) = length (name_marked records).
Proof. intros H. by rewrite remove_dups_NoDup, length_names. Qed.

Lemma RNAplot_default_condition self ext records :
  (RNAplot.seq_counter (RNAplot.scan self ext records) / 2
   - RNAplot.name_counter (RNAplot.scan self ext records) >? 0) = true
  ↔ Z.of_nat (length (anonymous records)) / 2
    > Z.of_nat (length (name_marked records)).
Proof.
  destruct (RNAplot_scan_counters self ext records) as [-> ->].
  rewrite Z.gtb_lt. lia.
Qed.

(** C3, the claim as stated fails. RNAfold on ['>seq1', 'ACGUACGU'] (K = 1,
    N = 2) registers the default entry although the anonymous count 1 does
    not exceed K; RNAplot on two structures both named a (K = 2, N = 6)
    registers one named group, not two. *)
Lemma registration_not_as_claimed :
  (∃ m, RNAfold._get_result_paths plain_app empty_world
          (PyList [">seq1"; "ACGUACGU"]) = Return m
      ∧ (length (name_marked [">seq1"; "ACGUACGU"])
         < length [">seq1"; "ACGUACGU"])%nat
      ∧ ¬ registers_as_claimed 1 [">seq1"; "ACGUACGU"] m)
  ∧ (∃ m, RNAplot._get_result_paths absolute_in_WorkingDir plain_app empty_world
            (PyList [">a"; "ACGU"; "(())"; ">a"; "GGCC"; "...."]) = Return m
        ∧ (length (name_marked [">a"; "ACGU"; "(())"; ">a"; "GGCC"; "...."])
           < length [">a"; "ACGU"; "(())"; ">a"; "GGCC"; "...."])%nat
        ∧ size (named_groups m) = 1%nat
        ∧ ¬ registers_as_claimed 2 [">a"; "ACGU"; "(())"; ">a"; "GGCC"; "...."] m).
Proof.
  split.
  - eexists. split; [reflexivity|]. split; [vm_compute; lia|].
    intros [_ [Hdefault _]]. assert (1 / 1 > 1) as Habs; [|done].
    apply Hdefault. by eexists.
  - eexists. split; [reflexivity|]. split; [vm_compute; lia|].
    split; [by vm_compute|]. intros [Hsize _]. by vm_compute in Hsize.
Qed.

(** C3, amended: on every list of records, each tool registers one named
    group per distinct bare name among the K name-marked records, hence at
    most K; RNAfold always registers the default entry 'SS', tagged as
    written exactly when the anonymous count exceeds K; RNAplot, with '-o'
    off, registers the default entry exactly when the anonymous count
    divided by 2 (rounded down) exceeds K. *)
Theorem registration_by_distinct_names _absolute self w records :
  (∃ m ss,
     RNAfold._get_result_paths self w (PyList records) = Return m
     ∧ size (named_groups m) = length (remove_dups (names records))
     ∧ (size (named_groups m) ≤ length (name_marked records))%nat
     ∧ m !! "SS" = Some ss
     ∧ (IsWritten ss = true
        ↔ (length (name_marked records) < length (anonymous records))%nat))
  ∧ (isOn (Parameters self "-o") = false →
     ∃ m,
       RNAplot._get_result_paths _absolute self w (PyList records) = Return m
       ∧ size (named_groups m) = length (remove_dups (names records))
       ∧ (size (named_groups m) ≤ length (name_marked records))%nat
       ∧ (default_group m
          ↔ Z.of_nat (length (anonymous records)) / 2
            > Z.of_nat (length (name_marked records)))).
Proof.
  assert (length (remove_dups (names records)) ≤ length (name_marked records))%nat
    as Hle by (rewrite <- length_names; apply length_remove_dups_le).
  split.
  - do 2 eexists. split; [reflexivity|].
    rewrite !named_groups_insert_default by auto.
    rewrite RNAfold_scan_named_groups, size_ss_keys.
    split; [done|]. split; [done|]. split.
    + by rewrite lookup_insert_ne, lookup_insert_eq.
    + apply RNAfold_written_default.
  - intros Hoff. pose proof (RNAplot_extension_off _absolute self Hoff) as Hext.
    rewrite (RNAplot_get_result_paths_list _ _ _ _ _ Hext). cbn zeta.
    pose proof (RNAplot_default_condition self ".ps" records) as Hcond.
    destruct (_ >? 0); eexists; (split; [reflexivity|]).
    + rewrite named_groups_insert_default by auto.
      rewrite RNAplot_scan_named_groups, size_ss_keys.
      split; [done|]. split; [done|]. unfold default_group.
      rewrite lookup_insert_eq. split; [intros _; by apply Hcond|eauto].
    + rewrite RNAplot_scan_named_groups, size_ss_keys.
      split; [done|]. split; [done|]. unfold default_group.
      rewrite RNAplot_scan_default_free. split.
      * by intros [? ?].
      * intros H%Hcond. done.
Qed.

Lemma registration_by_distinct_names_witness :
  ∃ m, RNAplot._get_result_paths absolute_in_WorkingDir plain_app empty_world
         (PyList [">a"; "ACGU"; "(())"; ">a"; "GGCC"; "...."]) = Return m
     ∧ size (named_groups m) = 1%nat.
Proof.
  destruct (registration_by_distinct_names absolute_in_WorkingDir plain_app
              empty_world [">a"; "ACGU"; "(())"; ">a"; "GGCC"; "...."])
    as [_ Hplot].
  destruct Hplot as (m & Hm & Hsize & _); [reflexivity|].
  exists m. split; [exact Hm|]. rewrite Hsize. reflexivity.
Defined.

(** ** Stripping *)

Lemma made_of_nil chars : made_of chars "".
Proof. by intros c ?%elem_of_nil. Qed.

Lemma made_of_cons chars c s :
  c ∈ chars → made_of chars s → made_of chars (String c s).
Proof. intros Hc Hs x [->|Hx]%elem_of_cons; auto. Qed.

Lemma lstrip_spec chars s :
  ∃ l, s = l +:+ lstrip chars s ∧ made_of chars l.
Proof.
  induction s as [|c s (l & IH & Hl)]; cbn.
  - exists "". split; [done|apply made_of_nil].
  - case_bool_decide as Hc.
    + exists (String c l). split; [by rewrite append_cons, <- IH|].
      by apply made_of_cons.
    + exists "". split; [done|apply made_of_nil].
Qed.

Lemma lstrip_first chars s c :
  first_char (lstrip chars s) = Some c → c ∉ chars.
Proof.
  induction s as [|x s IH]; cbn; [done|].
  case_bool_decide as Hx; [done|]. cbn. by intros [= <-].
Qed.

Lemma rstrip_spec chars s :
  ∃ r, s = rstrip chars s +:+ r ∧ made_of chars r.
Proof.
  induction s as [|c s (r & IH & Hr)]; cbn.
  - exists "". split; [done|apply made_of_nil].
  - destruct (rstrip chars s) as [|x t].
    + rewrite append_nil_l in IH. subst r. case_bool_decide as Hc.
      * exists (String c s). split; [done|]. by apply made_of_cons.
      * exists s. split; [done|]. done.
    + exists r. split; [|done]. by rewrite append_cons, <- IH.
Qed.

Lemma rstrip_last chars s c :
  last_char (rstrip chars s) = Some c → c ∉ chars.
Proof.
  induction s as [|x s IH]; cbn; [done|].
  destruct (rstrip chars s) as [|y t].
  - case_bool_decide as Hx; cbn; [done|]. by intros [= <-].
  - exact IH.
Qed.

Lemma rstrip_first chars s c :
  first_char (rstrip chars s) = Some c → first_char s = Some c.
Proof.
  destruct s as [|x s]; cbn; [done|].
  destruct (rstrip chars s); [|done]. by case_bool_decide.
Qed.

(** [strip] removes a run of [chars] at each end, and nothing more can be
    removed from what it leaves. *)
Lemma strip_spec chars s :
  (∃ l r, s = l +:+ strip chars s +:+ r ∧ made_of chars l ∧ made_of chars r)
  ∧ (∀ c, first_char (strip chars s) = Some c → c ∉ chars)
  ∧ (∀ c, last_char (strip chars s) = Some c → c ∉ chars).
Proof.
  unfold strip. split; [|split].
  - destruct (lstrip_spec chars s) as (l & Hl & ?).
    destruct (rstrip_spec chars (lstrip chars s)) as (r & Hr & ?).
    exists l, r. split; [|done]. by rewrite <- Hr.
  - intros c H%rstrip_first. by eapply lstrip_first.
  - intros c. apply rstrip_last.
Qed.

(** ** Repeated names *)

Lemma RNAfold_scan_repeated_name self records item :
  startswith ">" item = true → bare_name item ∈ names records →
  RNAfold.result (RNAfold.scan self (records ++ [item]))
  = RNAfold.result (RNAfold.scan self records).
Proof.
  intros Hstart [Hss Hdp]%(RNAfold_scan_named self).
  rewrite RNAfold_scan_snoc. unfold RNAfold.loop_body. rewrite Hstart. cbn.
  fold (bare_name item). rewrite (insert_id _ _ _ Hss). by apply insert_id.
Qed.

Lemma RNAplot_scan_repeated_name self ext records item :
  startswith ">" item = true → bare_name item ∈ names records →
  RNAplot.result (RNAplot.scan self ext (records ++ [item]))
  = RNAplot.result (RNAplot.scan self ext records).
Proof.
  intros Hstart Hss%(RNAplot_scan_named self ext).
  rewrite RNAplot_scan_snoc. unfold RNAplot.loop_body. rewrite Hstart. cbn.
  fold (bare_name item). by apply insert_id.
Qed.

Lemma names_elem_inv records n :
  n ∈ names records →
  ∃ item, item ∈ records ∧ startswith ">" item = true ∧ n = bare_name item.
Proof.
  unfold names, name_marked.
  intros (item & -> & [Hstart Hin]%list_elem_of_filter)%list_elem_of_fmap.
  by exists item.
Qed.

(** C10: the name of a name-marked record is the record without the run of
    '>' and newline characters at each of its ends; the record '>' counts as
    named and registers, in RNAfold as in RNAplot, the key '_ss' with the
    path WorkingDir + '_ss' + extension; a name-marked record whose name has
    occurred before adds no entry to the mapping. On every list, each tool
    counts every name-marked record as named and registers for it the key
    made of that name and '_ss', with the path WorkingDir + name + '_ss' +
    extension, and every key of that form in the mapping comes from the
    name of a name-marked record of the list. *)
Theorem names_are_stripped_records _absolute self w :
  (∀ record,
     (∃ l r, record = l +:+ bare_name record +:+ r
           ∧ made_of [">"%char; NL] l ∧ made_of [">"%char; NL] r)
     ∧ (∀ c, first_char (bare_name record) = Some c → c ∉ [">"%char; NL])
     ∧ (∀ c, last_char (bare_name record) = Some c → c ∉ [">"%char; NL]))
  ∧ (RNAfold.name_counter (RNAfold.scan self [">"]) = 1
     ∧ ∃ m, RNAfold._get_result_paths self w (PyList [">"]) = Return m
          ∧ m !! "_ss" = Some {| Path := WorkingDir self +:+ "_ss" +:+ ".ps";
                                 IsWritten := IsWritten_default |})
  ∧ (∀ ext, RNAplot._get_outfile_extension _absolute self = Return ext →
       RNAplot.name_counter (RNAplot.scan self ext [">"]) = 1
       ∧ ∃ m, RNAplot._get_result_paths _absolute self w (PyList [">"]) = Return m
            ∧ m !! "_ss" = Some {| Path := WorkingDir self +:+ "_ss" +:+ ext;
                                   IsWritten := IsWritten_default |})
  ∧ (∀ records item ext,
       startswith ">" item = true → bare_name item ∈ names records →
       RNAfold.result (RNAfold.scan self (records ++ [item]))
       = RNAfold.result (RNAfold.scan self records)
       ∧ RNAplot.result (RNAplot.scan self ext (records ++ [item]))
         = RNAplot.result (RNAplot.scan self ext records))
  ∧ (∀ records,
       RNAfold.name_counter (RNAfold.scan self records)
       = Z.of_nat (length (name_marked records))
       ∧ ∃ m, RNAfold._get_result_paths self w (PyList records) = Return m
            ∧ (∀ item, item ∈ records → startswith ">" item = true →
                 m !! (bare_name item +:+ "_ss")
                 = Some {| Path := (WorkingDir self +:+ bare_name item) +:+ "_ss.ps";
                           IsWritten := IsWritten_default |}
                 ∧ m !! (bare_name item +:+ "_dp")
                   = Some {| Path := (WorkingDir self +:+ bare_name item) +:+ "_dp.ps";
                             IsWritten := isOn (Parameters self "-p") |})
            ∧ (∀ k, k ∈ named_groups m →
                 ∃ item, item ∈ records ∧ startswith ">" item = true
                       ∧ k = bare_name item +:+ "_ss"))
  ∧ (∀ ext, RNAplot._get_outfile_extension _absolute self = Return ext →
     ∀ records,
       RNAplot.name_counter (RNAplot.scan self ext records)
       = Z.of_nat (length (name_marked records))
       ∧ ∃ m, RNAplot._get_result_paths _absolute self w (PyList records) = Return m
            ∧ (∀ item, item ∈ records → startswith ">" item = true →
                 m !! (bare_name item +:+ "_ss")
                 = Some {| Path := ((WorkingDir self +:+ bare_name item) +:+ "_ss")
                                   +:+ ext;
                           IsWritten := IsWritten_default |})
            ∧ (∀ k, k ∈ named_groups m →
                 ∃ item, item ∈ records ∧ startswith ">" item = true
                       ∧ k = bare_name item +:+ "_ss")).
Proof.
  split; [|split; [|split; [|split; [|split]]]].
  - intros record. apply strip_spec.
  - split; [done|]. eexists. split; [reflexivity|].
    rewrite !lookup_insert_ne by done.
    change (RNAfold.result (RNAfold.scan self [">"]) !! "_ss")
      with (Some {| Path := (WorkingDir self +:+ "") +:+ "_ss.ps";
                    IsWritten := IsWritten_default |}).
    by rewrite append_nil_r.
  - intros ext Hext. split; [done|].
    rewrite (RNAplot_get_result_paths_list _ _ _ _ _ Hext).
    eexists. split; [reflexivity|].
    change (Some {| Path := ((WorkingDir self +:+ "") +:+ "_ss") +:+ ext;
                    IsWritten := IsWritten_default |}
            = Some {| Path := WorkingDir self +:+ "_ss" +:+ ext;
                      IsWritten := IsWritten_default |}).
    by rewrite append_nil_r, append_assoc.
  - intros records item ext Hstart Hname. split.
    + by apply RNAfold_scan_repeated_name.
    + by apply RNAplot_scan_repeated_name.
  - intros records. split; [apply RNAfold_scan_counters|].
    eexists. split; [reflexivity|]. split.
    + intros item Hin Hstart.
      destruct (RNAfold_scan_named self records (bare_name item)) as [Hss Hdp].
      { by apply name_marked_elem. }
      destruct (named_key_not_default (bare_name item) "_ss") as [? ?]; [done|].
      destruct (named_key_not_default (bare_name item) "_dp") as [? ?]; [done|].
      by rewrite !lookup_insert_ne.
    + intros k. rewrite !named_groups_insert_default by auto.
      rewrite RNAfold_scan_named_groups.
      intros (n & -> & Hn)%elem_of_list_to_set%list_elem_of_fmap.
      apply names_elem_inv in Hn as (item & Hin & Hstart & ->). by exists item.
  - intros ext Hext records. split; [apply RNAplot_scan_counters|].
    rewrite (RNAplot_get_result_paths_list _ _ _ _ _ Hext). cbn zeta.
    destruct (_ >? 0); eexists; (split; [reflexivity|]); split.
    + intros item Hin Hstart.
      destruct (named_key_not_default (bare_name item) "_ss") as [? ?]; [done|].
      rewrite lookup_insert_ne by done.
      by apply RNAplot_scan_named, name_marked_elem.
    + intros k. rewrite named_groups_insert_default by auto.
      rewrite RNAplot_scan_named_groups.
      intros (n & -> & Hn)%elem_of_list_to_set%list_elem_of_fmap.
      apply names_elem_inv in Hn as (item & Hin & Hstart & ->). by exists item.
    + intros item Hin Hstart. by apply RNAplot_scan_named, name_marked_elem.
    + intros k. rewrite RNAplot_scan_named_groups.
      intros (n & -> & Hn)%elem_of_list_to_set%list_elem_of_fmap.
      apply names_elem_inv in Hn as (item & Hin & Hstart & ->). by exists item.
Qed.

Lemma names_are_stripped_records_witness :
  (∃ m, RNAplot._get_result_paths absolute_in_WorkingDir plain_app empty_world
          (PyList [">"]) = Return m
      ∧ m !! "_ss" = Some {| Path := "/tmp/_ss.ps"; IsWritten := true |})
  ∧ RNAfold.result (RNAfold.scan plain_app ([">a" +:+ newline; "ACGU"] ++ [">>a"]))
    = RNAfold.result (RNAfold.scan plain_app [">a" +:+ newline; "ACGU"])
  ∧ (∃ m, RNAfold._get_result_paths plain_app empty_world
            (PyList [">seq1" +:+ newline; "ACGU"]) = Return m
        ∧ m !! "seq1_ss" = Some {| Path := "/tmp/seq1_ss.ps"; IsWritten := true |})
  ∧ (∃ m, RNAplot._get_result_paths absolute_in_WorkingDir plain_app empty_world
            (PyList [">>seq1>"; "ACGU"; "(())"]) = Return m
        ∧ m !! "seq1_ss" = Some {| Path := "/tmp/seq1_ss.ps"; IsWritten := true |}).
Proof.
  destruct (names_are_stripped_records absolute_in_WorkingDir plain_app
              empty_world) as (_ & _ & Hplot & Hrepeat & Hfold & Hplots).
  split; [|split; [|split]].
  - destruct (Hplot ".ps") as [_ Hm]; [reflexivity|]. exact Hm.
  - apply (Hrepeat _ ">>a" ".ps"); [reflexivity|]. vm_compute.
    apply list_elem_of_here.
  - destruct (Hfold [">seq1" +:+ newline; "ACGU"]) as (_ & m & Hm & Hkeys & _).
    exists m. split; [exact Hm|].
    apply (Hkeys (">seq1" +:+ newline)); [apply list_elem_of_here|reflexivity].
  - destruct (Hplots ".ps" eq_refl [">>seq1>"; "ACGU"; "(())"])
      as (_ & m & Hm & Hkeys & _).
    exists m. split; [exact Hm|].
    apply (Hkeys ">>seq1>"); [apply list_elem_of_here|reflexivity].
Defined.

(** ** cove.py: input adaptation *)

(** Covet emits the companion token, a space, and the main token, for a
    file name and for a list of records. *)
Lemma Covet_input_as_string_tokens base_input_as_string self filename :
  Cove.Covet_input_as_string base_input_as_string self filename
  = (filename +:+ ".cm") +:+ " " +:+ base_input_as_string self filename.
Proof. reflexivity. Qed.

Lemma Covet_input_as_lines_tokens getTmpFilename self d w :
  (Cove.Covet_input_as_lines getTmpFilename self d w).1.1
  = Return ((getTmpFilename (WorkingDir self) +:+ ".cm") +:+ " "
            +:+ getTmpFilename (WorkingDir self)).
Proof. reflexivity. Qed.

(** The path-based adapters of the four classes are one and the same. *)
Lemma cove_input_as_string_tokens base_input_as_string self filename :
  Cove.Coves_input_as_string base_input_as_string self filename
  = (filename +:+ ".cm") +:+ " " +:+ base_input_as_string self filename
  ∧ Cove.Covee_input_as_string base_input_as_string self filename
    = Cove.Coves_input_as_string base_input_as_string self filename
  ∧ Cove.Covea_input_as_string base_input_as_string self filename
    = Cove.Coves_input_as_string base_input_as_string self filename
  ∧ Cove.Covet_input_as_string base_input_as_string self filename
    = Cove.Coves_input_as_string base_input_as_string self filename.
Proof. by repeat split. Qed.

(** On a string Covee's line adapter joins the two tokens with nothing in
    between. *)
Lemma Covee_input_as_lines_on_string base_input_as_lines self s w tmp self' w' :
  base_input_as_lines self (PyStr s) w = (Return tmp, self', w') →
  Cove.Covee_input_as_lines base_input_as_lines self (PyStr s) w
  = (Return ((s +:+ ".cm") +:+ tmp), self', w').
Proof. intros H. unfold Cove.Covee_input_as_lines. by rewrite H. Qed.

(** C4, the failing input: on a list of records the line adapters of Covee
    and Covea raise a TypeError, whatever the base class does; no token is
    emitted, where Covet emits the companion token and the main one. *)
Theorem Covee_input_as_lines_raises_on_lists base_input_as_lines records :
  Cove.Covee_input_as_lines base_input_as_lines plain_app
    (PyList [">seq1"; "ACGUACGU"]) empty_world
  = (Raise (TypeError "can only concatenate list (not str) to list"),
     plain_app, empty_world)
  ∧ raises (Cove.Covee_input_as_lines base_input_as_lines plain_app
              (PyList records) empty_world).1.1
  ∧ raises (Cove.Covea_input_as_lines base_input_as_lines plain_app
              (PyList records) empty_world).1.1
  ∧ (Cove.Covet_input_as_lines tmp_in plain_app
       (PyList [">seq1"; "ACGUACGU"]) empty_world).1.1
    = Return "/tmp/tmpAbCdEfGh.txt.cm /tmp/tmpAbCdEfGh.txt".
Proof. repeat split; by eexists. Qed.

(** ** cove.py: the file written by the line adapter *)

Lemma readlines_line line rest :
  contains NL line = false →
  readlines (line +:+ newline +:+ rest) = (line +:+ newline) :: readlines rest.
Proof.
  induction line as [|c line IH]; intros Hline.
  - reflexivity.
  - cbn in Hline. apply orb_false_iff in Hline as [Hc Hline].
    rewrite !append_cons. cbn. rewrite Hc, (IH Hline). done.
Qed.

Lemma join_cons sep x y l :
  join sep (x :: y :: l) = x +:+ sep +:+ join sep (y :: l).
Proof. reflexivity. Qed.

Lemma readlines_join lines :
  lines ≠ [] → Forall (λ line, contains NL line = false) lines →
  readlines (join newline lines +:+ newline) = (λ line, line +:+ newline) <$> lines.
Proof.
  induction lines as [|x [|y l] IH]; intros Hne Hall; [done|..].
  - apply Forall_inv in Hall. cbn.
    rewrite <- (append_nil_r (x +:+ newline)), append_assoc.
    by rewrite readlines_line.
  - apply Forall_cons in Hall as [Hx Hall].
    rewrite join_cons, !append_assoc, readlines_line by done.
    rewrite fmap_cons. f_equal. by apply IH.
Qed.

(** C5, the claim as stated fails in three ways: the empty sequence is
    read back as one empty line; a record with a newline inside is read
    back as two lines; a record that starts with a newline is read back
    without it. *)
Lemma Covet_lines_not_read_back_as_written :
  let written records :=
    read_back (Cove.Covet_input_as_lines tmp_in plain_app (PyList records)
                 empty_world).2 (tmp_in "/tmp/") in
  (written [] = Some [newline] ∧ written [] ≠ Some (terminated <$> []))
  ∧ (written ["a" +:+ newline +:+ "b"] = Some ["a" +:+ newline; "b" +:+ newline]
     ∧ written ["a" +:+ newline +:+ "b"]
       ≠ Some (terminated <$> ["a" +:+ newline +:+ "b"]))
  ∧ (written [newline +:+ "a"] = Some ["a" +:+ newline]
     ∧ written [newline +:+ "a"] ≠ Some (terminated <$> [newline +:+ "a"])).
Proof. repeat split; by vm_compute. Qed.

(** C5, amended: for every non-empty sequence of records none of which
    holds a newline other than at its ends, Covet's line adapter writes a
    file that is read back as the same records in the same order, each
    without the newlines at its ends and terminated by exactly one newline,
    the last one included. *)
Theorem Covet_lines_round_trip getTmpFilename self w records :
  records ≠ [] →
  Forall (λ r, contains NL (strip [NL] r) = false) records →
  ∃ token self' w',
    Cove.Covet_input_as_lines getTmpFilename self (PyList records) w
    = (Return token, self', w')
    ∧ _input_filename self' = Some (getTmpFilename (WorkingDir self))
    ∧ read_back w' (getTmpFilename (WorkingDir self))
      = Some ((λ r, strip [NL] r +:+ newline) <$> records).
Proof.
  intros Hne Hall. do 3 eexists. split; [reflexivity|]. split; [reflexivity|].
  unfold read_back, Cove.write_file. cbn. rewrite lookup_insert_eq. cbn. f_equal.
  rewrite readlines_join.
  - by rewrite <- list_fmap_compose.
  - by destruct records.
  - by apply Forall_fmap.
Qed.

Lemma Covet_lines_round_trip_witness :
  ∃ w', (Cove.Covet_input_as_lines tmp_in plain_app
           (PyList [">seq1" +:+ newline; "ACGUACGU"]) empty_world).2 = w'
      ∧ read_back w' "/tmp/tmpAbCdEfGh.txt"
        = Some [">seq1" +:+ newline; "ACGUACGU" +:+ newline].
Proof.
  destruct (Covet_lines_round_trip tmp_in plain_app empty_world
              [">seq1" +:+ newline; "ACGUACGU"])
    as (token & self' & w' & Hrun & _ & Hread).
  - discriminate.
  - repeat constructor.
  - exists w'. split; [by rewrite Hrun|]. exact Hread.
Defined.

(** ** The helper functions *)

Section HelperProperties.

Context {params CommandLineAppResult : Type}.
Variable RNAfold_new : option params → CommandLineApplication.
Variable RNAplot_new : string → option params → CommandLineApplication.
Variable run : string → CommandLineApplication → list string →
               gmap string string → Exc CommandLineAppResult * gmap string string.
Variable StdOut_readlines : CommandLineAppResult → list string.
Variable read_result : CommandLineAppResult → string → Exc string.
Variable MinimalRnaalifoldParser : list string → Exc (list (string * string * string)).
Variable release : CommandLineAppResult → gmap string string → gmap string string.
Variable picked : string.
Variable valid_structure : string → bool.

(** With a sequence and a constraint of one non-zero length the external
    command is launched, and once. *)
Lemma get_constrained_fold_launches sequence constraint_string params_ w :
  sequence ≠ "" → String.length sequence = String.length constraint_string →
  launched (Helpers.get_constrained_fold RNAfold_new run StdOut_readlines
              MinimalRnaalifoldParser release
              sequence constraint_string params_ w).2
  = launched w ++ ["RNAfold"].
Proof.
  intros Hseq Hlen. unfold Helpers.get_constrained_fold.
  rewrite bool_decide_eq_false_2 by done.
  rewrite bool_decide_eq_false_2
    by (intros ->; destruct sequence; [done|discriminate]).
  rewrite Hlen, Nat.eqb_refl. cbn. unfold Helpers.call.
  destruct (run _ _ _ _) as [[res|e] fs]; cbn; [|done].
  by destruct (MinimalRnaalifoldParser _) as [[|first rest]|e].
Qed.

(** C8: when the two inputs differ in length, and for get_constrained_fold
    also when one of them is empty, each helper raises an exception and
    leaves the world as it was: no external command has been launched and
    no value is returned for the inputs as given, defaulted or truncated. *)
Theorem helpers_raise_before_launching a b seqname params_ w :
  (String.length a ≠ String.length b ∨ a = "" ∨ b = "" →
   ∃ msg, Helpers.get_constrained_fold RNAfold_new run StdOut_readlines
            MinimalRnaalifoldParser release a b params_ w
          = (Raise (ValueError msg), w))
  ∧ (String.length a ≠ String.length b →
     ∃ e, Helpers.plot_from_seq_and_struct RNAplot_new run read_result release
            picked valid_structure a b seqname params_ w
          = (Raise e, w)).
Proof.
  split.
  - intros H. unfold Helpers.get_constrained_fold.
    case_bool_decide as Ha; [by eexists|].
    case_bool_decide as Hb; [by eexists|].
    destruct H as [Hlen|[?|?]]; [|done..].
    apply Nat.eqb_neq in Hlen. rewrite Hlen. by eexists.
  - intros Hlen. unfold Helpers.plot_from_seq_and_struct, Helpers.ViennaStructure.
    destruct (valid_structure b); [|by eexists].
    apply Nat.eqb_neq in Hlen. rewrite Hlen. by eexists.
Qed.

End HelperProperties.

Lemma helpers_raise_before_launching_witness :
  (∃ msg, Helpers.get_constrained_fold (params := unit) (λ _, plain_app)
            run_stub (λ _, []) parser_stub (λ _ fs, fs)
            "ACGUACGU" "((....)" None empty_world
          = (Raise (ValueError msg), empty_world))
  ∧ (∃ e, Helpers.plot_from_seq_and_struct (params := unit) (λ _ _, plain_app)
            run_stub (λ _ _, Return "plot") (λ _ fs, fs) "AbCdEfGhI"
            valid_dot_bracket "ACGUACGU" "((....)" None None empty_world
          = (Raise e, empty_world)).
Proof.
  split.
  - apply (helpers_raise_before_launching (params := unit) (λ _, plain_app)
             (λ _ _, plain_app) run_stub (λ _, []) (λ _ _, Return "plot")
             parser_stub (λ _ fs, fs) "AbCdEfGhI" valid_dot_bracket
             "ACGUACGU" "((....)" None None empty_world).
    left. vm_compute. lia.
  - apply (helpers_raise_before_launching (params := unit) (λ _, plain_app)
             (λ _ _, plain_app) run_stub (λ _, []) (λ _ _, Return "plot")
             parser_stub (λ _ fs, fs) "AbCdEfGhI" valid_dot_bracket
             "ACGUACGU" "((....)" None None empty_world).
    vm_compute. lia.
Defined.

(** ** RNAfold: the whole mapping *)

Lemma startswith_append (a b : string) : startswith a (a +:+ b) = true.
Proof.
  unfold startswith. induction a as [|c a IH]; [by destruct b|].
  rewrite append_cons. cbn. by destruct (ascii_dec c c).
Qed.

Lemma endswith_append_r (a b suf : string) :
  endswith suf b = true → endswith suf (a +:+ b) = true.
Proof.
  intros [c ->]%endswith_inv. rewrite <- append_assoc. apply endswith_append.
Qed.

Lemma RNAfold_scan_lookup self records k rp :
  RNAfold.result (RNAfold.scan self records) !! k = Some rp →
  ∃ n, n ∈ names records
     ∧ ((k = n +:+ "_ss"
         ∧ rp = {| Path := (WorkingDir self +:+ n) +:+ "_ss.ps";
                   IsWritten := IsWritten_default |})
        ∨ (k = n +:+ "_dp"
           ∧ rp = {| Path := (WorkingDir self +:+ n) +:+ "_dp.ps";
                     IsWritten := isOn (Parameters self "-p") |})).
Proof.
  intros Hk. assert (k ∈ dom (RNAfold.result (RNAfold.scan self records)))
    as Hdom by (apply elem_of_dom; eauto).
  rewrite RNAfold_scan_dom in Hdom.
  apply elem_of_union in Hdom as [Hdom|Hdom];
    apply elem_of_list_to_set, list_elem_of_fmap in Hdom as (n & -> & Hn);
    exists n; (split; [done|]);
    destruct (RNAfold_scan_named self records n Hn) as [Hss Hdp].
  - left. split; [done|]. congruence.
  - right. split; [done|]. congruence.
Qed.

Lemma RNAfold_written_default_decide self records :
  (RNAfold.seq_counter (RNAfold.scan self records)
   - RNAfold.name_counter (RNAfold.scan self records) >? 0)
  = bool_decide (length (name_marked records) < length (anonymous records))%nat.
Proof.
  apply eq_true_iff_eq. rewrite bool_decide_eq_true.
  apply RNAfold_written_default.
Qed.

(** X1: the mapping RNAfold's resolution returns on a list holds the two
    default entries, the two entries of every bare name, and nothing else;
    the value under each key is fixed by the name, the working directory,
    the state of '-p' and the two counts. *)
Theorem RNAfold_mapping_entries self w records :
  ∃ m, RNAfold._get_result_paths self w (PyList records) = Return m
     ∧ ∀ k rp, m !! k = Some rp ↔
         (k = "SS"
          ∧ rp = {| Path := WorkingDir self +:+ "rna.ps";
                    IsWritten := bool_decide (length (name_marked records)
                                              < length (anonymous records))%nat |})
         ∨ (k = "DP"
            ∧ rp = {| Path := WorkingDir self +:+ "dot.ps";
                      IsWritten := isOn (Parameters self "-p")
                                   && bool_decide (length (name_marked records)
                                                   < length (anonymous records))%nat |})
         ∨ (∃ n, n ∈ names records
               ∧ ((k = n +:+ "_ss"
                   ∧ rp = {| Path := (WorkingDir self +:+ n) +:+ "_ss.ps";
                             IsWritten := IsWritten_default |})
                  ∨ (k = n +:+ "_dp"
                     ∧ rp = {| Path := (WorkingDir self +:+ n) +:+ "_dp.ps";
                               IsWritten := isOn (Parameters self "-p") |}))).
Proof.
  eexists. split; [reflexivity|]. intros k rp.
  rewrite RNAfold_written_default_decide.
  destruct (decide (k = "DP")) as [->|Hdp].
  { rewrite lookup_insert_eq. split.
    - intros [= <-]. right. left. done.
    - intros [[? _]|[[_ ->]|(n & _ & [[H _]|[H _]])]]; [done|done|..];
        symmetry in H; by apply named_key_not_default in H. }
  rewrite lookup_insert_ne by done.
  destruct (decide (k = "SS")) as [->|Hss].
  { rewrite lookup_insert_eq. split.
    - intros [= <-]. left. done.
    - intros [[_ ->]|[[? _]|(n & _ & [[H _]|[H _]])]]; [done|done|..];
        symmetry in H; by apply named_key_not_default in H. }
  rewrite lookup_insert_ne by done. split.
  - intros H%RNAfold_scan_lookup. by right; right.
  - intros [[? _]|[[? _]|(n & Hn & H)]]; [done..|].
    destruct (RNAfold_scan_named self records n Hn) as [Hnss Hndp].
    by destruct H as [[-> ->]|[-> ->]].
Qed.

(** X2: every path RNAfold's resolution predicts lies in the working
    directory (it starts with WorkingDir) and ends in '.ps'. *)
Theorem RNAfold_paths_in_WorkingDir self w records :
  ∃ m, RNAfold._get_result_paths self w (PyList records) = Return m
     ∧ ∀ k rp, m !! k = Some rp →
         startswith (WorkingDir self) (Path rp) = true
         ∧ endswith ".ps" (Path rp) = true.
Proof.
  eexists. split; [reflexivity|]. intros k rp Hk.
  destruct (decide (k = "DP")) as [->|Hdp].
  { rewrite lookup_insert_eq in Hk. injection Hk as <-. cbn. split.
    - apply startswith_append.
    - by apply endswith_append_r. }
  rewrite lookup_insert_ne in Hk by done.
  destruct (decide (k = "SS")) as [->|Hss].
  { rewrite lookup_insert_eq in Hk. injection Hk as <-. cbn. split.
    - apply startswith_append.
    - by apply endswith_append_r. }
  rewrite lookup_insert_ne in Hk by done.
  apply RNAfold_scan_lookup in Hk as (n & _ & [[_ ->]|[_ ->]]); cbn;
    (split; [rewrite append_assoc; apply startswith_append
            |by apply endswith_append_r]).
Qed.

(** ** The mappings depend on the names and the two counts only *)

Lemma RNAfold_locals_eta (l : RNAfold.locals) :
  l = {| RNAfold.result := RNAfold.result l;
         RNAfold.name_counter := RNAfold.name_counter l;
         RNAfold.seq_counter := RNAfold.seq_counter l |}.
Proof. by destruct l. Qed.

Lemma RNAplot_locals_eta (l : RNAplot.locals) :
  l = {| RNAplot.result := RNAplot.result l;
         RNAplot.name_counter := RNAplot.name_counter l;
         RNAplot.seq_counter := RNAplot.seq_counter l |}.
Proof. by destruct l. Qed.

Lemma RNAfold_scan_ext self records records' :
  (∀ n, n ∈ names records ↔ n ∈ names records') →
  length (name_marked records) = length (name_marked records') →
  length (anonymous records) = length (anonymous records') →
  RNAfold.scan self records = RNAfold.scan self records'.
Proof.
  intros Hnames Hnamed Hanon.
  rewrite (RNAfold_locals_eta (RNAfold.scan self records)),
    (RNAfold_locals_eta (RNAfold.scan self records')).
  destruct (RNAfold_scan_counters self records) as [-> ->].
  destruct (RNAfold_scan_counters self records') as [-> ->].
  rewrite Hnamed, Hanon. f_equal.
  apply map_eq. intros k. apply option_eq. intros rp.
  split; intros (n & Hn & H)%RNAfold_scan_lookup.
  - apply Hnames in Hn.
    destruct (RNAfold_scan_named self records' n Hn) as [Hss Hdp].
    by destruct H as [[-> ->]|[-> ->]].
  - apply Hnames in Hn.
    destruct (RNAfold_scan_named self records n Hn) as [Hss Hdp].
    by destruct H as [[-> ->]|[-> ->]].
Qed.

Lemma RNAplot_scan_ext self ext records records' :
  (∀ n, n ∈ names records ↔ n ∈ names records') →
  length (name_marked records) = length (name_marked records') →
  length (anonymous records) = length (anonymous records') →
  RNAplot.scan self ext records = RNAplot.scan self ext records'.
Proof.
  intros Hnames Hnamed Hanon.
  rewrite (RNAplot_locals_eta (RNAplot.scan self ext records)),
    (RNAplot_locals_eta (RNAplot.scan self ext records')).
  destruct (RNAplot_scan_counters self ext records) as [-> ->].
  destruct (RNAplot_scan_counters self ext records') as [-> ->].
  rewrite Hnamed, Hanon. f_equal.
  apply map_eq. intros k. apply option_eq. intros rp.
  split; intros (n & Hn & -> & ->)%RNAplot_scan_lookup.
  - apply Hnames in Hn. by apply RNAplot_scan_named.
  - apply Hnames in Hn. by apply RNAplot_scan_named.
Qed.

(** X3: the order of the records does not matter to either resolution: two
    lists that are permutations of each other get the same answer, the same
    mapping or the same exception. Which sequence a name line stands
    above plays no part in the prediction. *)
Theorem result_paths_ignore_order _absolute self w records records' :
  records ≡ₚ records' →
  RNAfold._get_result_paths self w (PyList records)
  = RNAfold._get_result_paths self w (PyList records')
  ∧ RNAplot._get_result_paths _absolute self w (PyList records)
    = RNAplot._get_result_paths _absolute self w (PyList records').
Proof.
  intros Hperm.
  assert (name_marked records ≡ₚ name_marked records') as Hnamed
    by (unfold name_marked; by rewrite Hperm).
  assert (anonymous records ≡ₚ anonymous records') as Hanon
    by (unfold anonymous; by rewrite Hperm).
  assert (∀ n, n ∈ names records ↔ n ∈ names records') as Hnames
    by (intros n; unfold names; by rewrite Hnamed).
  apply Permutation_length in Hnamed, Hanon. split.
  - unfold RNAfold._get_result_paths. cbn.
    by rewrite (RNAfold_scan_ext self records records').
  - unfold RNAplot._get_result_paths. cbn.
    destruct (RNAplot._get_outfile_extension _absolute self) as [ext|e]; cbn; [|done].
    by rewrite (RNAplot_scan_ext self ext records records').
Qed.

Lemma result_paths_ignore_order_witness :
  RNAfold._get_result_paths plain_app empty_world
    (PyList [">a"; "ACGU"; ">b"; "GGCC"])
  = RNAfold._get_result_paths plain_app empty_world
      (PyList ["GGCC"; ">b"; ">a"; "ACGU"]).
Proof.
  apply (result_paths_ignore_order absolute_in_WorkingDir plain_app empty_world
           [">a"; "ACGU"; ">b"; "GGCC"] ["GGCC"; ">b"; ">a"; "ACGU"]).
  transitivity [">b"; "GGCC"; ">a"; "ACGU"].
  - apply (Permutation_app_comm [">a"; "ACGU"] [">b"; "GGCC"]).
  - apply perm_swap.
Defined.

(** ** A file of records against the list of them *)

Lemma rstrip_snoc chars s c :
  c ∈ chars → rstrip chars (s +:+ String c "") = rstrip chars s.
Proof.
  intros Hc. induction s as [|x s IH].
  - rewrite append_nil_l. cbn. by rewrite bool_decide_eq_true_2.
  - rewrite append_cons. cbn. by rewrite IH.
Qed.

Lemma strip_snoc chars s c :
  c ∈ chars → strip chars (s +:+ String c "") = strip chars s.
Proof.
  intros Hc. unfold strip. induction s as [|x s IH].
  - rewrite append_nil_l. cbn. by rewrite bool_decide_eq_true_2.
  - rewrite append_cons. cbn. case_bool_decide; [done|].
    by rewrite <- append_cons, rstrip_snoc.
Qed.

Lemma prefix_cons a s1 b s2 :
  String.prefix (String a s1) (String b s2)
  = if ascii_dec a b then String.prefix s1 s2 else false.
Proof. reflexivity. Qed.

Lemma prefix_nil s : String.prefix "" s = true.
Proof. by destruct s. Qed.

Lemma startswith_snoc_newline record :
  startswith ">" (record +:+ newline) = startswith ">" record.
Proof.
  destruct record as [|x record]; [done|].
  rewrite append_cons. unfold startswith. rewrite !prefix_cons.
  destruct (ascii_dec ">" x); [|done]. by rewrite !prefix_nil.
Qed.

Lemma bare_name_snoc_newline record :
  bare_name (record +:+ newline) = bare_name record.
Proof. apply strip_snoc. set_solver. Qed.

Lemma RNAfold_scan_terminated self records :
  RNAfold.scan self ((λ r, r +:+ newline) <$> records) = RNAfold.scan self records.
Proof.
  unfold RNAfold.scan. generalize ({| RNAfold.result := ∅;
    RNAfold.name_counter := 0; RNAfold.seq_counter := 0 |}).
  induction records as [|r records IH]; intros l; [done|]. cbn.
  rewrite IH. f_equal. unfold RNAfold.loop_body.
  rewrite startswith_snoc_newline.
  fold (bare_name (r +:+ newline)). fold (bare_name r).
  by rewrite bare_name_snoc_newline.
Qed.

Lemma RNAplot_scan_terminated self ext records :
  RNAplot.scan self ext ((λ r, r +:+ newline) <$> records)
  = RNAplot.scan self ext records.
Proof.
  unfold RNAplot.scan. generalize ({| RNAplot.result := ∅;
    RNAplot.name_counter := 0; RNAplot.seq_counter := 0 |}).
  induction records as [|r records IH]; intros l; [done|]. cbn.
  rewrite IH. f_equal. unfold RNAplot.loop_body.
  rewrite startswith_snoc_newline.
  fold (bare_name (r +:+ newline)). fold (bare_name r).
  by rewrite bare_name_snoc_newline.
Qed.

(** X4: called on a file name instead of a list, both resolutions raise
    IOError when the file does not exist (RNAplot does so before it looks at
    '-o'); and when the file holds the records of a non-empty list, one per
    line, each followed by a newline, they answer as they do on the list
    itself. *)
Theorem result_paths_of_a_file _absolute self w path :
  (files w !! path = None →
   RNAfold._get_result_paths self w (PyStr path) = Raise (IOError path)
   ∧ RNAplot._get_result_paths _absolute self w (PyStr path) = Raise (IOError path))
  ∧ (∀ records,
       records ≠ [] → Forall (λ r, contains NL r = false) records →
       files w !! path = Some (join newline records +:+ newline) →
       RNAfold._get_result_paths self w (PyStr path)
       = RNAfold._get_result_paths self w (PyList records)
       ∧ RNAplot._get_result_paths _absolute self w (PyStr path)
         = RNAplot._get_result_paths _absolute self w (PyList records)).
Proof.
  split.
  - intros Hnone. unfold RNAfold._get_result_paths, RNAplot._get_result_paths.
    cbn. unfold open_readlines. by rewrite Hnone.
  - intros records Hne Hall Hfile.
    unfold RNAfold._get_result_paths, RNAplot._get_result_paths.
    cbn. unfold open_readlines. rewrite Hfile, readlines_join by done. cbn.
    rewrite RNAfold_scan_terminated. split; [done|].
    destruct (RNAplot._get_outfile_extension _absolute self) as [ext|e]; cbn; [|done].
    by rewrite RNAplot_scan_terminated.
Qed.

Lemma result_paths_of_a_file_witness :
  RNAfold._get_result_paths plain_app world_with_input (PyStr "/tmp/in.fa")
  = RNAfold._get_result_paths plain_app world_with_input
      (PyList [">seq1"; "ACGUACGU"])
  ∧ RNAplot._get_result_paths absolute_in_WorkingDir plain_app world_with_input
      (PyStr "/tmp/missing") = Raise (IOError "/tmp/missing").
Proof.
  destruct (result_paths_of_a_file absolute_in_WorkingDir plain_app
              world_with_input "/tmp/in.fa") as [_ Hfile].
  destruct (result_paths_of_a_file absolute_in_WorkingDir plain_app
              world_with_input "/tmp/missing") as [Hmissing _].
  split.
  - apply (Hfile [">seq1"; "ACGUACGU"]).
    + discriminate.
    + repeat constructor.
    + reflexivity.
  - apply Hmissing. reflexivity.
Defined.

(** ** RNAplot with an output format *)

(** X5: once '-o' is on, RNAplot's resolution returns no mapping, whatever
    the value of '-o', the four formats of the table included: on a list,
    and on a file that exists, it raises NameError for the name
    FILETYPE_TO_EXTENSION. *)
Theorem RNAplot_any_format_raises _absolute self w d :
  isOn (Parameters self "-o") = true →
  RNAplot._get_outfile_extension _absolute self
  = Raise (NameError "FILETYPE_TO_EXTENSION")
  ∧ ((∀ path, d = PyStr path → is_Some (files w !! path)) →
     RNAplot._get_result_paths _absolute self w d
     = Raise (NameError "FILETYPE_TO_EXTENSION")).
Proof.
  intros Hon. pose proof (RNAplot_extension_on _absolute self Hon) as Hext.
  split; [done|]. intros Hfile. unfold RNAplot._get_result_paths.
  destruct d as [records|path]; cbn.
  - by rewrite Hext.
  - unfold open_readlines. destruct (Hfile path eq_refl) as [content ->]. cbn.
    by rewrite Hext.
Qed.

Lemma RNAplot_any_format_raises_witness :
  RNAplot._get_result_paths absolute_in_WorkingDir (app_with_o "svg")
    empty_world (PyList [">seq1"; "ACGU"; "(())"])
  = Raise (NameError "FILETYPE_TO_EXTENSION")
  ∧ RNAplot.FILETYPE_TO_EXTENSION !! "svg" = Some ".svg".
Proof.
  split; [|reflexivity].
  apply (RNAplot_any_format_raises absolute_in_WorkingDir (app_with_o "svg")
           empty_world (PyList [">seq1"; "ACGU"; "(())"])).
  - reflexivity.
  - discriminate.
Defined.

(** ** The key a plot is read from *)

Lemma lstrip_id chars s :
  (∀ c, first_char s = Some c → c ∉ chars) → lstrip chars s = s.
Proof.
  destruct s as [|x s]; [done|]. intros H. cbn.
  rewrite bool_decide_eq_false_2; [done|]. by apply H.
Qed.

Lemma rstrip_id chars s :
  (∀ c, last_char s = Some c → c ∉ chars) → rstrip chars s = s.
Proof.
  induction s as [|x s IH]; [done|]. intros H. cbn.
  destruct s as [|y s].
  - cbn. rewrite bool_decide_eq_false_2; [done|]. by apply H.
  - rewrite IH; [done|]. exact H.
Qed.

(** A string is its own bare name exactly when neither its first nor its
    last character is '>' or a newline. *)
Lemma bare_name_id s :
  bare_name s = s ↔
  (∀ c, first_char s = Some c → c ∉ [">"%char; NL])
  ∧ (∀ c, last_char s = Some c → c ∉ [">"%char; NL]).
Proof.
  split.
  - intros H. destruct (strip_spec [">"%char; NL] s) as (_ & Hfirst & Hlast).
    fold (bare_name s) in Hfirst, Hlast. by rewrite H in Hfirst, Hlast.
  - intros [Hfirst Hlast]. unfold bare_name, strip.
    by rewrite lstrip_id, rstrip_id.
Qed.

Lemma bare_name_marked s : bare_name (">" +:+ s) = bare_name s.
Proof. reflexivity. Qed.

Lemma RNAplot_loop_body_named self ext l item :
  startswith ">" item = true →
  RNAplot.loop_body self ext l item
  = {| RNAplot.result :=
         <[ bare_name item +:+ "_ss" :=
              {| Path := ((WorkingDir self +:+ bare_name item) +:+ "_ss") +:+ ext;
                 IsWritten := IsWritten_default |} ]> (RNAplot.result l);
       RNAplot.name_counter := RNAplot.name_counter l + 1;
       RNAplot.seq_counter := RNAplot.seq_counter l |}.
Proof. intros H. unfold RNAplot.loop_body. by rewrite H. Qed.

Lemma RNAplot_loop_body_anonymous self ext l item :
  startswith ">" item = false →
  RNAplot.loop_body self ext l item
  = {| RNAplot.result := RNAplot.result l;
       RNAplot.name_counter := RNAplot.name_counter l;
       RNAplot.seq_counter := RNAplot.seq_counter l + 1 |}.
Proof. intros H. unfold RNAplot.loop_body. by rewrite H. Qed.

(** X6: on the input plot_from_seq_and_struct builds, the name line, the
    sequence and the structure (neither starting with '>'), RNAplot's
    resolution with '-o' off registers one entry only, under the bare name
    of the sequence name, and no default entry. The key seqname + '_ss'
    that the helper reads is therefore in the mapping exactly when the
    name neither starts nor ends with '>' or a newline. *)
Theorem RNAplot_plot_key _absolute self w seqname seq struct :
  isOn (Parameters self "-o") = false →
  startswith ">" seq = false → startswith ">" struct = false →
  ∃ m, RNAplot._get_result_paths _absolute self w
         (PyList [">" +:+ seqname; seq; struct]) = Return m
     ∧ m = {[ bare_name seqname +:+ "_ss" :=
                {| Path := ((WorkingDir self +:+ bare_name seqname) +:+ "_ss") +:+ ".ps";
                   IsWritten := IsWritten_default |} ]}
     ∧ (is_Some (m !! (seqname +:+ "_ss"))
        ↔ (∀ c, first_char seqname = Some c → c ∉ [">"%char; NL])
          ∧ (∀ c, last_char seqname = Some c → c ∉ [">"%char; NL])).
Proof.
  intros Hoff Hseq Hstruct.
  pose proof (RNAplot_extension_off _absolute self Hoff) as Hext.
  rewrite (RNAplot_get_result_paths_list _ _ _ _ _ Hext).
  unfold RNAplot.scan. cbn [fold_left].
  rewrite (RNAplot_loop_body_named _ _ _ (">" +:+ seqname))
    by apply startswith_append.
  rewrite (RNAplot_loop_body_anonymous _ _ _ seq) by done.
  rewrite (RNAplot_loop_body_anonymous _ _ _ struct) by done.
  cbn. rewrite bare_name_marked.
  eexists. split; [reflexivity|]. split; [done|].
  rewrite <- bare_name_id. rewrite lookup_insert_is_Some, lookup_empty.
  split.
  - intros [H|[_ [? H]]]; [|done]. by apply append_suffix_cancel in H.
  - intros ->. by left.
Qed.

Lemma RNAplot_plot_key_witness :
  ∃ m, RNAplot._get_result_paths absolute_in_WorkingDir plain_app empty_world
         (PyList [">" +:+ "seq1>"; "ACGU"; "(())"]) = Return m
     ∧ m !! "seq1_ss" = Some {| Path := "/tmp/seq1_ss.ps"; IsWritten := true |}.
Proof.
  destruct (RNAplot_plot_key absolute_in_WorkingDir plain_app empty_world
              "seq1>" "ACGU" "(())") as (m & Hm & -> & _); try reflexivity.
  eexists. split; [exact Hm|]. reflexivity.
Defined.

(** ** Temporary sequence names *)

Lemma get_elem n s c :
  String.get n s = Some c → c ∈ list_ascii_of_string s.
Proof.
  revert n. induction s as [|x s IH]; intros n; [done|]. cbn.
  destruct n as [|n].
  - intros [= ->]. apply list_elem_of_here.
  - intros H%IH. by apply list_elem_of_further.
Qed.

Lemma get_lt n s : (n < String.length s)%nat → is_Some (String.get n s).
Proof.
  revert n. induction s as [|x s IH]; intros n; cbn; [lia|].
  destruct n as [|n]; [by eexists|]. intros H. apply IH. lia.
Qed.

Lemma choice_elem seq r :
  seq ≠ "" → choice seq r ∈ list_ascii_of_string seq.
Proof.
  intros Hne. unfold choice.
  destruct (get_lt (Nat.modulo r (String.length seq)) seq) as [c Hc].
  - apply Nat.mod_upper_bound. by destruct seq.
  - rewrite Hc. cbn. by eapply get_elem.
Qed.

Lemma last_char_elem s c : last_char s = Some c → c ∈ list_ascii_of_string s.
Proof.
  induction s as [|x s IH]; [done|]. cbn. destruct s as [|y s].
  - intros [= ->]. apply list_elem_of_here.
  - intros H%IH. by apply list_elem_of_further.
Qed.

Lemma length_string_of_list_ascii l :
  String.length (string_of_list_ascii l) = length l.
Proof. induction l as [|x l IH]; [done|]. cbn. by rewrite IH. Qed.

(** The characters a name can be made of: they are among [picks], none is
    j, J or 8, and none is '>' or a newline. *)
Lemma picks_characters c :
  c ∈ list_ascii_of_string ("tmp" +:+ RNAplot.picks) →
  c ∈ list_ascii_of_string RNAplot.picks
  ∧ (c ∉ ["j"%char; "J"%char; "8"%char])
  ∧ (c ∉ [">"%char; NL]).
Proof.
  revert c. apply Forall_forall. apply (bool_decide_unpack _). by vm_compute.
Qed.

Lemma tmp_seqname_characters random c :
  c ∈ list_ascii_of_string (RNAplot._get_tmp_seqname random) →
  c ∈ list_ascii_of_string ("tmp" +:+ RNAplot.picks).
Proof.
  unfold RNAplot._get_tmp_seqname.
  rewrite !list_ascii_of_string_append, list_ascii_of_string_of_list_ascii.
  rewrite !elem_of_app. intros [H|H]; [by left|]. right.
  apply list_elem_of_fmap in H as (i & -> & _). by apply choice_elem.
Qed.

(** X7: whatever is drawn, the name _get_tmp_seqname returns is 'tmp'
    followed by nine characters, twelve in all; its characters are among
    the picks, never j, J or 8 (which the alphabet of the function lacks);
    and it is its own bare name, so the entry RNAplot registers for it is
    under the key the name itself gives. *)
Theorem RNAplot_tmp_seqname random :
  String.length (RNAplot._get_tmp_seqname random) = 12%nat
  ∧ startswith "tmp" (RNAplot._get_tmp_seqname random) = true
  ∧ (∀ c, c ∈ list_ascii_of_string (RNAplot._get_tmp_seqname random) →
          c ∈ list_ascii_of_string RNAplot.picks
          ∧ c ∉ ["j"%char; "J"%char; "8"%char])
  ∧ bare_name (RNAplot._get_tmp_seqname random) = RNAplot._get_tmp_seqname random.
Proof.
  split; [|split; [|split]].
  - unfold RNAplot._get_tmp_seqname.
    by rewrite length_append, length_string_of_list_ascii, length_fmap, length_seq.
  - apply startswith_append.
  - intros c Hc%tmp_seqname_characters%picks_characters. tauto.
  - apply bare_name_id. split.
    + intros c [= <-]. set_solver.
    + intros c Hc%last_char_elem%tmp_seqname_characters%picks_characters. tauto.
Qed.

(** ** Covet: the result paths and the line adapter *)

(** X8: after Covet's line adapter has run on a list, Covet's result-path
    resolution on that list returns exactly two entries: '_input_filename',
    the temporary file, which exists, and 'cm', that name with '.cm'
    appended; the token the adapter returned is the path of 'cm', a space,
    and the path of '_input_filename'. *)
Theorem Covet_lines_then_result_paths getTmpFilename self records w :
  ∃ token self' w' m cm input,
    Cove.Covet_input_as_lines getTmpFilename self (PyList records) w
    = (Return token, self', w')
    ∧ Cove.Covet_get_result_paths self' (PyList records) = Return m
    ∧ dom m = {[ "cm"; "_input_filename" ]}
    ∧ m !! "cm" = Some cm
    ∧ m !! "_input_filename" = Some input
    ∧ Path cm = Path input +:+ ".cm"
    ∧ token = Path cm +:+ " " +:+ Path input
    ∧ is_Some (files w' !! Path input).
Proof.
  do 6 eexists. split; [reflexivity|]. split; [reflexivity|].
  split; [|split; [|split; [|split; [|split]]]].
  - rewrite !dom_insert_L, dom_empty_L. set_solver.
  - by rewrite lookup_insert_ne, lookup_insert_eq.
  - by rewrite lookup_insert_eq.
  - reflexivity.
  - reflexivity.
  - cbn. rewrite lookup_insert_eq. by eexists.
Qed.

(** X9: Covet's result-path resolution on a list raises TypeError when no
    input file name has been recorded on the instance; on a file name it
    never raises, its 'cm' entry is that name with '.cm' appended, and it
    has an '_input_filename' entry exactly when the instance holds a
    recorded name, which is then the path of that entry whatever the file
    name given. *)
Theorem Covet_result_paths_edges self :
  (_input_filename self = None →
   ∀ records, ∃ msg,
     Cove.Covet_get_result_paths self (PyList records) = Raise (TypeError msg))
  ∧ (∀ path, ∃ m,
       Cove.Covet_get_result_paths self (PyStr path) = Return m
       ∧ m !! "cm" = Some {| Path := path +:+ ".cm"; IsWritten := IsWritten_default |}
       ∧ m !! "_input_filename"
         = (λ filename, {| Path := filename; IsWritten := IsWritten_default |})
           <$> _input_filename self).
Proof.
  split.
  - intros Hnone records. unfold Cove.Covet_get_result_paths.
    rewrite Hnone. by eexists.
  - intros path. unfold Cove.Covet_get_result_paths. cbn.
    destruct (_input_filename self) as [filename|]; eexists;
      (split; [reflexivity|]); cbn.
    + by rewrite lookup_insert_ne, !lookup_insert_eq.
    + by rewrite lookup_insert_eq, lookup_insert_ne.
Qed.

Lemma Covet_result_paths_edges_witness :
  ∃ msg, Cove.Covet_get_result_paths plain_app (PyList [">seq1"; "ACGUACGU"])
         = Raise (TypeError msg).
Proof.
  apply (Covet_result_paths_edges plain_app). reflexivity.
Defined.

Lemma contains_false_elem c s :
  contains c s = false → c ∉ list_ascii_of_string s.
Proof.
  induction s as [|x s IH]; cbn.
  - intros _. apply not_elem_of_nil.
  - intros [Hx Hs]%orb_false_iff. apply bool_decide_eq_false in Hx.
    apply not_elem_of_cons. split; [congruence|by apply IH].
Qed.

Lemma first_char_elem s c : first_char s = Some c → c ∈ list_ascii_of_string s.
Proof. destruct s; [done|]. intros [= ->]. apply list_elem_of_here. Qed.

(** A line without newline, once terminated, is stripped back to itself. *)
Lemma strip_line x :
  contains NL x = false → strip [NL] (x +:+ newline) = x.
Proof.
  intros Hx%contains_false_elem. unfold newline.
  rewrite strip_snoc by apply list_elem_of_here. unfold strip.
  rewrite lstrip_id, rstrip_id; [done|..].
  - intros c Hc%last_char_elem ->%list_elem_of_singleton. done.
  - intros c Hc%first_char_elem ->%list_elem_of_singleton. done.
Qed.

(** Every string is the join, by newlines, of pieces without newline. *)
Lemma split_lines c :
  ∃ xs, xs ≠ [] ∧ Forall (λ x, contains NL x = false) xs ∧ c = join newline xs.
Proof.
  induction c as [|x c (xs & Hne & Hall & ->)].
  - exists [""]. split; [done|]. split; [by repeat constructor|done].
  - destruct xs as [|y ys]; [done|]. apply Forall_cons in Hall as [Hy Hys].
    destruct (decide (x = NL)) as [->|Hx].
    + exists ("" :: y :: ys). split; [done|]. split; [by repeat constructor|].
      by rewrite join_cons.
    + exists (String x y :: ys). split; [done|]. split.
      * constructor; [|done]. cbn. by rewrite bool_decide_eq_false_2.
      * destruct ys as [|z zs]; [done|]. by rewrite !join_cons, append_cons.
Qed.

(** X10: the file Covet's line adapter writes, on a list or a string, ends
    in a newline and is a fixed point of the adapter: adapting the lines
    read back from it writes the same content again. *)
Theorem Covet_written_file_is_fixed getTmpFilename self d w w2 :
  ∃ content,
    files (Cove.Covet_input_as_lines getTmpFilename self d w).2
      !! getTmpFilename (WorkingDir self) = Some content
    ∧ endswith newline content = true
    ∧ files (Cove.Covet_input_as_lines getTmpFilename self
               (PyList (readlines content)) w2).2
        !! getTmpFilename (WorkingDir self) = Some content.
Proof.
  eexists. split; [cbn; by rewrite lookup_insert_eq|].
  split; [apply endswith_append|].
  cbn. rewrite lookup_insert_eq. f_equal. f_equal.
  destruct (split_lines (join newline (strip [NL] <$> Cove.iterate d)))
    as (xs & Hne & Hall & ->).
  rewrite readlines_join by done. rewrite <- list_fmap_compose. f_equal.
  clear Hne. induction Hall as [|x xs Hx _ IH]; [done|].
  rewrite fmap_cons, IH. f_equal. by apply strip_line.
Qed.

Lemma strip_single chars c :
  c ∉ chars → strip chars (String c "") = String c "".
Proof.
  intros Hc. unfold strip. cbn. rewrite bool_decide_eq_false_2 by done.
  cbn. by rewrite bool_decide_eq_false_2.
Qed.

(** X11: given a string instead of a list, Covet's line adapter writes its
    characters one per line: a non-empty string without newline is read
    back as its characters, each followed by a newline. *)
Theorem Covet_lines_of_a_string getTmpFilename self s w :
  s ≠ "" → contains NL s = false →
  read_back (Cove.Covet_input_as_lines getTmpFilename self (PyStr s) w).2
    (getTmpFilename (WorkingDir self))
  = Some ((λ c, String c newline) <$> list_ascii_of_string s).
Proof.
  intros Hne Hs%contains_false_elem. unfold read_back. cbn.
  rewrite lookup_insert_eq. cbn. f_equal.
  rewrite readlines_join.
  - rewrite <- !list_fmap_compose. apply list_fmap_ext. intros i c Hc.
    unfold compose. apply list_elem_of_lookup_2 in Hc.
    destruct (decide (c = NL)) as [->|Hnl]; [done|].
    by rewrite strip_single by set_solver.
  - destruct s; [done|]. done.
  - rewrite <- list_fmap_compose. apply Forall_fmap, Forall_forall.
    intros c Hc. destruct (decide (c = NL)) as [->|Hnl]; [done|].
    unfold compose. rewrite strip_single by set_solver. cbn.
    by rewrite bool_decide_eq_false_2.
Qed.

Lemma Covet_lines_of_a_string_witness :
  read_back (Cove.Covet_input_as_lines tmp_in plain_app (PyStr "ACG") empty_world).2
    "/tmp/tmpAbCdEfGh.txt"
  = Some ["A" +:+ newline; "C" +:+ newline; "G" +:+ newline].
Proof.
  apply (Covet_lines_of_a_string tmp_in plain_app "ACG" empty_world);
    [discriminate|reflexivity].
Defined.

(** ** The helper functions: what a returned value guarantees *)

Section HelperResults.

Context {params CommandLineAppResult : Type}.
Variable RNAfold_new : option params → CommandLineApplication.
Variable RNAplot_new : string → option params → CommandLineApplication.
Variable run : string → CommandLineApplication → list string →
               gmap string string → Exc CommandLineAppResult * gmap string string.
Variable StdOut_readlines : CommandLineAppResult → list string.
Variable read_result : CommandLineAppResult → string → Exc string.
Variable MinimalRnaalifoldParser : list string → Exc (list (string * string * string)).
Variable release : CommandLineAppResult → gmap string string → gmap string string.
Variable picked : string.
Variable valid_structure : string → bool.

(** X12: get_constrained_fold returns a value only if both inputs are
    non-empty and of one length, RNAfold was run once, with '-C' on, on the
    sequence followed by the constraint, and the parser found at least one
    result, the first of which is the value; the result was then released.
    When it raises instead, nothing has been released: the files are as they
    were, or as the run left them. *)
Theorem get_constrained_fold_returns a b params_ w :
  (∀ t w',
     Helpers.get_constrained_fold RNAfold_new run StdOut_readlines
       MinimalRnaalifoldParser release a b params_ w = (Return t, w') →
     a ≠ "" ∧ b ≠ "" ∧ String.length a = String.length b
     ∧ isOn (Parameters (Helpers.on "-C" (RNAfold_new params_)) "-C") = true
     ∧ ∃ res fs rest,
         run "RNAfold" (Helpers.on "-C" (RNAfold_new params_)) [a; b] (files w)
         = (Return res, fs)
         ∧ MinimalRnaalifoldParser (StdOut_readlines res) = Return (t :: rest)
         ∧ w' = {| files := release res fs;
                   launched := launched w ++ ["RNAfold"] |})
  ∧ (∀ e w',
       Helpers.get_constrained_fold RNAfold_new run StdOut_readlines
         MinimalRnaalifoldParser release a b params_ w = (Raise e, w') →
       w' = w
       ∨ ∃ r fs,
           run "RNAfold" (Helpers.on "-C" (RNAfold_new params_)) [a; b] (files w)
           = (r, fs)
           ∧ w' = {| files := fs; launched := launched w ++ ["RNAfold"] |}).
Proof.
  unfold Helpers.get_constrained_fold, Helpers.call.
  split; intros x w'; (case_bool_decide as Ha; [intros [= <- <-]; auto|]);
    (case_bool_decide as Hb; [intros [= <- <-]; auto|]);
    (destruct (Nat.eqb_spec (String.length a) (String.length b)) as [Hlen|Hlen];
      cbn; [|intros [= <- <-]; auto]);
    destruct (run _ _ _ _) as [[res|e'] fs] eqn:Hrun; cbn;
    try (intros [= <- <-]; eauto; fail);
    destruct (MinimalRnaalifoldParser _) as [[|first rest]|e''] eqn:Hparse;
    intros [= <- <-]; eauto 10.
Qed.

(** X13: plot_from_seq_and_struct returns a plot only if the structure is
    valid and as long as the sequence, RNAplot was run once, in /tmp, on the
    name line, the sequence and the structure, and the plot was read from
    the result under the key name + '_ss'; the name is the one given or, if
    none, 'tmp' followed by the characters drawn. An empty sequence with an
    empty structure is not rejected: if the empty structure is valid the
    command is run. *)
Theorem plot_from_seq_and_struct_returns seq struct seqname params_ w :
  (∀ plot w',
     Helpers.plot_from_seq_and_struct RNAplot_new run read_result release
       picked valid_structure seq struct seqname params_ w = (Return plot, w') →
     valid_structure struct = true
     ∧ String.length seq = String.length struct
     ∧ ∃ res fs,
         run "RNAplot" (RNAplot_new "/tmp" params_)
           [">" +:+ default ("tmp" +:+ picked) seqname; seq; struct] (files w)
         = (Return res, fs)
         ∧ read_result res (default ("tmp" +:+ picked) seqname +:+ "_ss")
           = Return plot
         ∧ w' = {| files := release res fs;
                   launched := launched w ++ ["RNAplot"] |})
  ∧ (valid_structure "" = true →
     launched (Helpers.plot_from_seq_and_struct RNAplot_new run read_result
                 release picked valid_structure "" "" seqname params_ w).2
     = launched w ++ ["RNAplot"]).
Proof.
  unfold Helpers.plot_from_seq_and_struct, Helpers.ViennaStructure, Helpers.call.
  split.
  - intros plot w'. destruct (valid_structure struct); [|done].
    destruct (Nat.eqb_spec (String.length seq) (String.length struct))
      as [Hlen|Hlen]; cbn; [|done].
    destruct (run _ _ _ _) as [[res|e'] fs] eqn:Hrun; cbn; [|done].
    destruct (read_result _ _) as [plot'|e''] eqn:Hread; [|done].
    intros [= <- <-]. eauto 10.
  - intros ->. cbn.
    destruct (run _ _ _ _) as [[res|e'] fs]; cbn; [|done].
    by destruct (read_result _ _).
Qed.

End HelperResults.

Lemma get_constrained_fold_returns_witness :
  ∃ res fs rest,
    run_stub "RNAfold" (Helpers.on "-C" plain_app) ["ACGU"; "(..)"] ∅
    = (Return res, fs)
    ∧ parser_stub [] = Return (("ACGU", "(..)", "-0.1") :: rest).
Proof.
  destruct (get_constrained_fold_returns (params := unit) (λ _, plain_app)
              run_stub (λ _, []) parser_stub (λ _ fs, fs)
              "ACGU" "(..)" None empty_world) as [Hreturn _].
  destruct (Hreturn ("ACGU", "(..)", "-0.1")
              {| files := ∅; launched := ["RNAfold"] |})
    as (_ & _ & _ & _ & res & fs & rest & Hrun & Hparse & _); [reflexivity|].
  exists res, fs, rest. split; [exact Hrun|exact Hparse].
Defined.

Lemma plot_from_seq_and_struct_returns_witness :
  valid_dot_bracket "(..)" = true
  ∧ launched (Helpers.plot_from_seq_and_struct (params := unit)
                (λ _ _, plain_app) run_stub (λ _ _, Return "plot") (λ _ fs, fs)
                "AbCdEfGhI" valid_dot_bracket "" "" None None empty_world).2
    = ["RNAplot"].
Proof.
  destruct (plot_from_seq_and_struct_returns (params := unit) (λ _ _, plain_app)
              run_stub (λ _ _, Return "plot") (λ _ fs, fs) "AbCdEfGhI"
              valid_dot_bracket "ACGU" "(..)" None None empty_world)
    as [Hreturn Hempty].
  split.
  - apply (Hreturn "plot" {| files := ∅; launched := ["RNAplot"] |}). reflexivity.
  - apply Hempty. reflexivity.
Defined.

(** ** The size of RNAfold's mapping and the whole of RNAplot's *)

Lemma size_suffix_keys suf (l : list string) :
  size (list_to_set ((λ n, n +:+ suf) <$> l) : gset string)
  = length (remove_dups l).
Proof.
  transitivity (size (list_to_set ((λ n, n +:+ suf) <$> remove_dups l) : gset string)).
  - f_equal. apply set_eq. intros k.
    rewrite !elem_of_list_to_set, !list_elem_of_fmap.
    by setoid_rewrite elem_of_remove_dups.
  - rewrite size_list_to_set, length_fmap; [done|].
    apply (NoDup_fmap_2 _), NoDup_remove_dups.
Qed.

Lemma suffix_keys_not_default suf (l : list string) k :
  String.length suf = 3%nat → k = "SS" ∨ k = "DP" →
  k ∉ (list_to_set ((λ n, n +:+ suf) <$> l) : gset string).
Proof.
  intros Hlen Hk (n & -> & _)%elem_of_list_to_set%list_elem_of_fmap.
  destruct (named_key_not_default n suf Hlen). by destruct Hk.
Qed.

(** X14: the mapping RNAfold's resolution returns on a list has two entries
    for the defaults and two for every distinct bare name, and no more:
    2 + 2d entries for d distinct names. *)
Theorem RNAfold_mapping_size self w records :
  ∃ m, RNAfold._get_result_paths self w (PyList records) = Return m
     ∧ size m = (2 + 2 * length (remove_dups (names records)))%nat.
Proof.
  eexists. split; [reflexivity|].
  rewrite <- size_dom, !dom_insert_L, RNAfold_scan_dom.
  rewrite !size_union, !size_singleton, !size_suffix_keys; [lia|..].
  - intros k (n & -> & _)%elem_of_list_to_set%list_elem_of_fmap
             (n' & H & _)%elem_of_list_to_set%list_elem_of_fmap.
    by apply ss_key_not_dp_key in H.
  - apply disjoint_singleton_l, not_elem_of_union.
    split; by apply suffix_keys_not_default; auto.
  - apply disjoint_singleton_l. rewrite !not_elem_of_union.
    split; [by apply not_elem_of_singleton|].
    split; by apply suffix_keys_not_default; auto.
Qed.

(** X15: with '-o' off, the mapping RNAplot's resolution returns on a list
    holds one entry per bare name, with path WorkingDir + name + '_ss.ps',
    the default entry 'SS' (path WorkingDir + 'rna.ps', tagged as written)
    when half the anonymous count, rounded down, exceeds the named count,
    and nothing else. *)
Theorem RNAplot_mapping_entries _absolute self w records :
  isOn (Parameters self "-o") = false →
  ∃ m, RNAplot._get_result_paths _absolute self w (PyList records) = Return m
     ∧ ∀ k rp, m !! k = Some rp ↔
         (k = "SS"
          ∧ Z.of_nat (length (anonymous records)) / 2
            > Z.of_nat (length (name_marked records))
          ∧ rp = {| Path := (WorkingDir self +:+ "rna") +:+ ".ps";
                    IsWritten := true |})
         ∨ (∃ n, n ∈ names records
               ∧ k = n +:+ "_ss"
               ∧ rp = {| Path := ((WorkingDir self +:+ n) +:+ "_ss") +:+ ".ps";
                         IsWritten := IsWritten_default |}).
Proof.
  intros Hoff. pose proof (RNAplot_extension_off _absolute self Hoff) as Hext.
  rewrite (RNAplot_get_result_paths_list _ _ _ _ _ Hext). cbn zeta.
  pose proof (RNAplot_default_condition self ".ps" records) as Hcond.
  assert (∀ k rp,
    RNAplot.result (RNAplot.scan self ".ps" records) !! k = Some rp ↔
    ∃ n, n ∈ names records ∧ k = n +:+ "_ss"
       ∧ rp = {| Path := ((WorkingDir self +:+ n) +:+ "_ss") +:+ ".ps";
                 IsWritten := IsWritten_default |}) as Hscan.
  { intros k rp. split; [apply RNAplot_scan_lookup|].
    intros (n & Hn & -> & ->). by apply RNAplot_scan_named. }
  destruct (_ >? 0); eexists; (split; [reflexivity|]); intros k rp.
  - destruct (decide (k = "SS")) as [->|Hne].
    + rewrite lookup_insert_eq. split.
      * intros [= <-]. left. split; [done|]. split; [by apply Hcond|done].
      * intros [(_ & _ & ->)|(n & _ & H & _)]; [done|].
        symmetry in H. by apply named_key_not_default in H.
    + rewrite lookup_insert_ne by done. rewrite Hscan. split; [by right|].
      by intros [[? _]|?].
  - rewrite Hscan. split; [by right|].
    intros [(_ & H%Hcond & _)|?]; done.
Qed.

Lemma RNAplot_mapping_entries_witness :
  ∃ m, RNAplot._get_result_paths absolute_in_WorkingDir plain_app empty_world
         (PyList ["ACGU"; "(())"]) = Return m
     ∧ m !! "SS" = Some {| Path := "/tmp/rna.ps"; IsWritten := true |}.
Proof.
  destruct (RNAplot_mapping_entries absolute_in_WorkingDir plain_app empty_world
              ["ACGU"; "(())"]) as (m & Hm & Hentries); [reflexivity|].
  exists m. split; [exact Hm|]. apply Hentries. left.
  split; [reflexivity|]. split; [|reflexivity]. vm_compute. reflexivity.
Defined.
